(** * Hybrid bidding QA assistant: query understanding and safe query synthesis

    A shallow embedding of the Python sources
      - [router/query_router.py]          (intent router),
      - [preprocess/llm_ir_generator.py]  (IR synthesizer),
      - [validators/schema_validator.py]  (structural IR validator),
      - [validators/business_validator.py] (business IR validator),
      - [sql_engine/db_schema.py], [sql_engine/ir2sql.py] (query synthesizer),
      - [validators/confidence_checker.py] (confidence fuser),
      - [logging/logger.py]               (the logger all of them call),
    followed by the properties established about them.

    Python objects are dynamically typed, so IR dictionaries are values of
    one inductive type [pyval]; exceptions are an explicit error result. *)

From Stdlib Require Import String Ascii List ZArith QArith Bool Lia DecimalString.
Import ListNotations.

Local Open Scope list_scope.
Local Open Scope string_scope.

(* ================================================================== *)
(** * Python values and exceptions *)
(* ================================================================== *)

(** The values an IR dictionary can hold.  Dictionaries keep insertion
    order and are keyed by strings (the IR is a [Dict[str, Any]], and JSON
    objects have string keys); a list of bindings stands for a dictionary
    whose keys are pairwise distinct.  Floats are carried as exact
    rationals: comparisons between numbers are exact in Python, NaN and
    the infinities are not represented. *)
#[local] Set Warnings "-register-all".

Inductive pyval : Type :=
| PNone
| PBool (b : bool)
| PInt (z : Z)
| PFloat (q : Q)
| PStr (s : string)
| PList (l : list pyval)
| PTuple (l : list pyval)
| PDict (d : list (string * pyval)).

Definition dict : Type := list (string * pyval).

(** The exceptions the modelled code can raise.  [ValueError] keeps the
    message the source builds; the two others come from the interpreter. *)
Inductive exn : Type :=
| ValueError (msg : string)
| TypeError
| AttributeError.

Inductive res (A : Type) : Type :=
| Ok (a : A)
| Raise (e : exn).

Arguments Ok {A} a.
Arguments Raise {A} e.

Definition bind {A B : Type} (c : res A) (k : A -> res B) : res B :=
  match c with
  | Ok a => k a
  | Raise e => Raise e
  end.

Notation "x <- c ;; k" := (bind c (fun x => k))
  (at level 61, c at next level, right associativity).
Notation "' pat <- c ;; k" := (bind c (fun x => match x with pat => k end))
  (at level 61, pat pattern, c at next level, right associativity).

(** [try: ... except Exception: ...] *)
Definition try_except {A : Type} (c : res A) (handler : exn -> res A) : res A :=
  match c with
  | Ok a => Ok a
  | Raise e => handler e
  end.

Definition returns {A : Type} (c : res A) : Prop := exists a, c = Ok a.
Definition raises {A : Type} (c : res A) : Prop := exists e, c = Raise e.

(* ================================================================== *)
(** * Strings *)
(* ================================================================== *)

(** Strings are sequences of UTF-8 bytes.  Substring search and
    lexicographic comparison on the bytes agree with Python's on code
    points, because UTF-8 is self-synchronising and order preserving. *)

(** [k in q] for two strings. *)
Fixpoint contains (k q : string) : bool :=
  prefix k q ||
  match q with
  | EmptyString => false
  | String _ r => contains k r
  end.

(** [any(k in q for k in ks)] *)
Definition any_in (ks : list string) (q : string) : bool :=
  existsb (fun k => contains k q) ks.

(** Number of positions of [s] at which [p] starts: [s.count(p)] for a
    pattern that cannot overlap itself. *)
Fixpoint occ (p s : string) : nat :=
  match s with
  | EmptyString => 0
  | String _ r => (if prefix p s then 1 else 0) + occ p r
  end.

(** [sep.join(parts)] *)
Fixpoint join (sep : string) (parts : list string) : string :=
  match parts with
  | [] => ""
  | [x] => x
  | x :: rest => x ++ sep ++ join sep rest
  end.

(** [s.startswith(p)] is [prefix p s]; [s[n:]] *)
Fixpoint drop (n : nat) (s : string) : string :=
  match n, s with
  | O, _ => s
  | S _, EmptyString => EmptyString
  | S m, String _ r => drop m r
  end.

(** [s.split(",")]: always at least one piece. *)
Fixpoint split_on (sep : ascii) (s : string) : list string :=
  match s with
  | EmptyString => [""]
  | String c r =>
      if Ascii.eqb c sep then "" :: split_on sep r
      else match split_on sep r with
           | [] => [String c ""]
           | x :: xs => String c x :: xs
           end
  end.

(** [s.replace(old, new)]: left to right, non overlapping.  An empty [old]
    is not used by the sources and leaves the string unchanged here.  The
    fuel is the length of the string, which bounds the number of steps. *)
Fixpoint replace_fuel (fuel : nat) (old new s : string) : string :=
  match fuel with
  | O => s
  | S fuel' =>
      match s with
      | EmptyString => EmptyString
      | String c r =>
          if (negb (String.eqb old "")) && prefix old s
          then new ++ replace_fuel fuel' old new (drop (String.length old) s)
          else String c (replace_fuel fuel' old new r)
      end
  end.

Definition replace (old new s : string) : string :=
  replace_fuel (String.length s) old new s.

(** The code points of a UTF-8 string, each as its byte sequence: what
    iterating over a [str] yields. *)
Definition is_continuation (c : ascii) : bool :=
  let n := nat_of_ascii c in (128 <=? n)%nat && (n <? 192)%nat.

Definition starts_with_continuation (s : string) : bool :=
  match s with
  | EmptyString => false
  | String c _ => is_continuation c
  end.

Fixpoint utf8_chars (s : string) : list string :=
  match s with
  | EmptyString => []
  | String c r =>
      match utf8_chars r with
      | x :: xs =>
          if starts_with_continuation x then String c x :: xs
          else String c "" :: x :: xs
      | [] => [String c ""]
      end
  end.

(** [str(n)] for an [int]. *)
Definition Z_to_string (z : Z) : string := NilZero.string_of_int (Z.to_int z).

(** The parts of the Python runtime that the model does not interpret:
    case folding and whitespace of the full Unicode tables, and the
    textual form of floats and of quoted strings, and the JSON decoder
    of the standard library. *)
Class PyRuntime : Type := {
  str_lower : string -> string;          (* s.lower() *)
  str_split : string -> list string;     (* s.split() *)
  str_strip : string -> string;          (* s.strip() *)
  float_repr : Q -> string;              (* repr(x) for a float *)
  str_repr : string -> string;           (* repr(s) for a str *)
  json_loads : string -> res pyval       (* json.loads(s) *)
}.

(** A runtime for plain ASCII text, used to run the model on examples. *)
Definition ascii_lower (c : ascii) : ascii :=
  let n := nat_of_ascii c in
  if (65 <=? n)%nat && (n <=? 90)%nat then ascii_of_nat (n + 32) else c.

Fixpoint map_string (f : ascii -> ascii) (s : string) : string :=
  match s with
  | EmptyString => EmptyString
  | String c r => String (f c) (map_string f r)
  end.

Definition is_space (c : ascii) : bool :=
  let n := nat_of_ascii c in
  (n =? 32)%nat || ((9 <=? n)%nat && (n <=? 13)%nat).

Fixpoint split_spaces (cur : string) (s : string) : list string :=
  match s with
  | EmptyString => if String.eqb cur "" then [] else [cur]
  | String c r =>
      if is_space c
      then (if String.eqb cur "" then split_spaces "" r
            else cur :: split_spaces "" r)
      else split_spaces (cur ++ String c "") r
  end.

Fixpoint lstrip (s : string) : string :=
  match s with
  | EmptyString => EmptyString
  | String c r => if is_space c then lstrip r else s
  end.

Fixpoint rstrip (s : string) : string :=
  match s with
  | EmptyString => EmptyString
  | String c r =>
      match rstrip r with
      | EmptyString => if is_space c then EmptyString else String c ""
      | r' => String c r'
      end
  end.

(** The JSON documents made of one empty container or one literal name;
    any other text is refused, as [json.loads] refuses ill-formed text
    with [JSONDecodeError], a [ValueError]. *)
Definition literal_json_loads (s : string) : res pyval :=
  if String.eqb s "{}" then Ok (PDict [])
  else if String.eqb s "[]" then Ok (PList [])
  else if String.eqb s "null" then Ok PNone
  else if String.eqb s "true" then Ok (PBool true)
  else if String.eqb s "false" then Ok (PBool false)
  else Raise (ValueError "JSONDecodeError").

Definition ascii_runtime : PyRuntime := {|
  str_lower := map_string ascii_lower;
  str_split := split_spaces "";
  str_strip := fun s => rstrip (lstrip s);
  float_repr := fun q =>
    Z_to_string (Qnum q) ++ "/" ++ Z_to_string (Z.pos (Qden q));
  str_repr := fun s => "'" ++ s ++ "'";
  json_loads := literal_json_loads
|}.

(* ================================================================== *)
(** * Operations of the interpreter on values *)
(* ================================================================== *)

(** [bool(v)]: the truth value used by [if v], [not v], [a or b]. *)
Definition truthy (v : pyval) : bool :=
  match v with
  | PNone => false
  | PBool b => b
  | PInt z => negb (z =? 0)%Z
  | PFloat q => negb (Qeq_bool q 0)
  | PStr s => negb (String.eqb s "")
  | PList l => match l with [] => false | _ => true end
  | PTuple l => match l with [] => false | _ => true end
  | PDict d => match d with [] => false | _ => true end
  end.

(** [a or b] *)
Definition py_or (a b : pyval) : pyval := if truthy a then a else b.

(** Lookup in a dictionary: the first binding of the key. *)
Fixpoint lookup (k : string) (d : dict) : option pyval :=
  match d with
  | [] => None
  | (k', v) :: rest => if String.eqb k k' then Some v else lookup k rest
  end.

(** [d.get(k)] and [d.get(k, default)] *)
Definition dict_get_default (d : dict) (k : string) (default : pyval) : pyval :=
  match lookup k d with
  | Some v => v
  | None => default
  end.

Definition dict_get (d : dict) (k : string) : pyval :=
  dict_get_default d k PNone.

(** [k in d] *)
Definition has_key (d : dict) (k : string) : bool :=
  match lookup k d with
  | Some _ => true
  | None => false
  end.

(** [v.get(k)] on an arbitrary object: only dictionaries have [get]. *)
Definition obj_get (v : pyval) (k : string) : res pyval :=
  match v with
  | PDict d => Ok (dict_get d k)
  | _ => Raise AttributeError
  end.

(** The numeric value of a [bool], [int] or [float]. *)
Definition as_number (v : pyval) : option Q :=
  match v with
  | PBool b => Some (if b then 1 else 0)%Q
  | PInt z => Some (inject_Z z)
  | PFloat q => Some q
  | _ => None
  end.

Definition Qlt_bool (a b : Q) : bool := negb (Qle_bool b a).

(** [a == b] *)
Fixpoint py_eq (a b : pyval) {struct a} : bool :=
  match a, b with
  | PNone, PNone => true
  | PStr s, PStr t => String.eqb s t
  | PList l, PList m =>
      (fix all2 (l m : list pyval) {struct l} : bool :=
         match l, m with
         | [], [] => true
         | x :: xs, y :: ys => py_eq x y && all2 xs ys
         | _, _ => false
         end) l m
  | PTuple l, PTuple m =>
      (fix all2 (l m : list pyval) {struct l} : bool :=
         match l, m with
         | [], [] => true
         | x :: xs, y :: ys => py_eq x y && all2 xs ys
         | _, _ => false
         end) l m
  | PDict d, PDict e =>
      (length d =? length e)%nat &&
      (fix all_in (d : dict) {struct d} : bool :=
         match d with
         | [] => true
         | (k, v) :: rest =>
             match lookup k e with
             | Some w => py_eq v w && all_in rest
             | None => false
             end
         end) d
  | _, _ =>
      match as_number a, as_number b with
      | Some x, Some y => Qeq_bool x y
      | _, _ => false
      end
  end.

(** [v == s] for a string constant [s] *)
Definition py_eq_str (v : pyval) (s : string) : bool := py_eq v (PStr s).

(** [v in strs] for a list of strings: membership uses [==]. *)
Definition py_in_strs (v : pyval) (strs : list string) : bool :=
  existsb (fun s => py_eq v (PStr s)) strs.

(** [a < b]: defined between numbers, between strings, and between two
    lists or two tuples (at the first pair of unequal items, else by
    length); every other combination raises [TypeError]. *)
Fixpoint py_lt (a b : pyval) {struct a} : res bool :=
  match a, b with
  | PStr s, PStr t => Ok (String.ltb s t)
  | PList l, PList m =>
      (fix lex (l m : list pyval) {struct l} : res bool :=
         match l, m with
         | [], [] => Ok false
         | [], _ :: _ => Ok true
         | _ :: _, [] => Ok false
         | x :: xs, y :: ys => if py_eq x y then lex xs ys else py_lt x y
         end) l m
  | PTuple l, PTuple m =>
      (fix lex (l m : list pyval) {struct l} : res bool :=
         match l, m with
         | [], [] => Ok false
         | [], _ :: _ => Ok true
         | _ :: _, [] => Ok false
         | x :: xs, y :: ys => if py_eq x y then lex xs ys else py_lt x y
         end) l m
  | _, _ =>
      match as_number a, as_number b with
      | Some x, Some y => Ok (Qlt_bool x y)
      | _, _ => Raise TypeError
      end
  end.

(** [a > b] is decided by the reflected comparison. *)
Definition py_gt (a b : pyval) : res bool := py_lt b a.

(** [isinstance(v, int)]: [bool] is a subclass of [int]. *)
Definition is_int (v : pyval) : bool :=
  match v with
  | PInt _ | PBool _ => true
  | _ => false
  end.

Definition int_value (v : pyval) : Z :=
  match v with
  | PInt z => z
  | PBool true => 1%Z
  | _ => 0%Z
  end.

(** [v is None] *)
Definition is_none (v : pyval) : bool :=
  match v with PNone => true | _ => false end.

(** [isinstance(v, dict)], [isinstance(v, list)], [isinstance(v, (list, tuple))] *)
Definition is_dict (v : pyval) : bool :=
  match v with PDict _ => true | _ => false end.

Definition is_list (v : pyval) : bool :=
  match v with PList _ => true | _ => false end.

Definition is_list_or_tuple (v : pyval) : bool :=
  match v with PList _ | PTuple _ => true | _ => false end.

(** The items of a list or tuple. *)
Definition seq_items (v : pyval) : list pyval :=
  match v with
  | PList l | PTuple l => l
  | _ => []
  end.

(** [for x in v]: lists and tuples yield their items, strings their
    characters, dictionaries their keys; nothing else is iterable. *)
Definition py_iter (v : pyval) : res (list pyval) :=
  match v with
  | PList l | PTuple l => Ok l
  | PStr s => Ok (map PStr (utf8_chars s))
  | PDict d => Ok (map (fun kv => PStr (fst kv)) d)
  | _ => Raise TypeError
  end.

(** A value can be a dictionary key only if it is hashable. *)
Fixpoint hashable (v : pyval) : bool :=
  match v with
  | PList _ | PDict _ => false
  | PTuple l =>
      (fix all (l : list pyval) : bool :=
         match l with
         | [] => true
         | x :: xs => hashable x && all xs
         end) l
  | _ => true
  end.

Section Formatting.
Context {RT : PyRuntime}.

(** [repr(v)] *)
Fixpoint py_repr (v : pyval) : string :=
  match v with
  | PNone => "None"
  | PBool true => "True"
  | PBool false => "False"
  | PInt z => Z_to_string z
  | PFloat q => float_repr q
  | PStr s => str_repr s
  | PList l => "[" ++ join ", " (map py_repr l) ++ "]"
  | PTuple [x] => "(" ++ py_repr x ++ ",)"
  | PTuple l => "(" ++ join ", " (map py_repr l) ++ ")"
  | PDict d =>
      "{" ++ join ", "
        (map (fun kv => let '(k, x) := kv in str_repr k ++ ": " ++ py_repr x) d)
      ++ "}"
  end.

(** [str(v)], which is also what an f-string field [{v}] inserts. *)
Definition py_str (v : pyval) : string :=
  match v with
  | PStr s => s
  | _ => py_repr v
  end.

(** [repr] of a list of strings, as in [{self.allowed_ops}]. *)
Definition repr_strs (l : list string) : string :=
  py_repr (PList (map PStr l)).
End Formatting.

(* ================================================================== *)
(** * logging/logger.py *)
(* ================================================================== *)

(** [SimpleLogger.info], [warning], [error] and [debug] all have the
    signature [(self, msg, **extra)]: a call passes the message and
    keyword arguments.  A call that passes further positional arguments
    (the [%]-style of the standard library) does not match the signature
    and raises [TypeError] before anything is printed.  The printed line
    itself is not part of the model. *)
Definition SimpleLogger_call (extra_positional : nat) : res unit :=
  match extra_positional with
  | O => Ok tt
  | S _ => Raise TypeError
  end.

(* ================================================================== *)
(** * router/query_router.py *)
(* ================================================================== *)

(** [class Route(str, Enum)]: the values of the four members. *)
Module Route.
Definition RAG : string := "rag".
Definition SQL : string := "sql".
Definition HYBRID : string := "hybrid".
Definition OTHER : string := "other".
End Route.

Record RouteResult : Type := {
  route : string;
  intent : string;
  entity_type : option string;
  reason : option string
}.

(** [LlmClassifier = Callable[[str], str]]: the call may raise, and
    whatever it returns is passed through [str]. *)
Definition LlmClassifier : Type := string -> res pyval.

Module QueryRouter.
Section Methods.
Context {RT : PyRuntime}.

(** [self._router_cfg["intent_map"]], from [config/rules.yaml]: intent
    label to a mapping holding a [route] (or [router]) entry. *)
Variable intent_map : list (string * dict).
Variable llm_classifier : option LlmClassifier.

Definition _rule_based_route (query : string)
  : string * option string * string :=
  let q := str_lower query in
  if any_in ["政策"; "扶持"; "规范"; "办法"; "通知"; "条例"] q then
    ("policy_query", Some "policy", Route.RAG)
  else if any_in ["舆情"; "口碑"; "负面"; "风险"; "投诉"; "舆论"] q then
    ("opinion_query", Some "opinion", Route.RAG)
  else if any_in ["招标"; "中标"; "投标"; "项目"; "标段"] q then
    if any_in ["政策"; "扶持"; "补贴"; "优惠"] q then
      ("hybrid_query", Some "tender", Route.HYBRID)
    else ("tender_query", Some "tender", Route.SQL)
  else if any_in ["公司"; "企业"; "供应商"; "厂商"] q then
    ("company_query", Some "company", Route.SQL)
  else if any_in ["价格"; "报价"; "行情"; "单价"; "成本"] q then
    ("items_query", Some "price", Route.SQL)
  else ("general_query", None, Route.RAG).

Fixpoint lookup_conf (k : string) (m : list (string * dict)) : dict :=
  match m with
  | [] => []
  | (k', conf) :: rest => if String.eqb k k' then conf else lookup_conf k rest
  end.

Definition _intent_to_route (intent : string) : string :=
  let conf := lookup_conf intent intent_map in
  let r := py_or (dict_get conf "route") (dict_get conf "router") in
  if py_in_strs r [Route.RAG; Route.SQL; Route.HYBRID]
  then py_str r
  else Route.OTHER.

Definition classify_prompt (query : string) : string :=
  "你是一个用于分类查询意图的助手，请根据用户问题输出以下标签之一：" ++ String "010" ""
  ++ "- policy_query" ++ String "010" ""
  ++ "- opinion_query" ++ String "010" ""
  ++ "- tender_query" ++ String "010" ""
  ++ "- company_query" ++ String "010" ""
  ++ "- items_query" ++ String "010" ""
  ++ "- hybrid_query" ++ String "010" ""
  ++ "只输出标签本身，不要额外解释。" ++ String "010" (String "010" "")
  ++ "用户问题：" ++ query.

(** Returns the label ([None] after a failure) together with the
    prompts that were sent to the classifier. *)
Definition _safe_llm_classify (clf : LlmClassifier) (query : string)
  : option string * list string :=
  let prompt := classify_prompt query in
  match try_except
          (raw <- clf prompt ;; Ok (Some (str_strip (py_str raw))))
          (fun _ => _ <- SimpleLogger_call 0 ;; Ok None)
  with
  | Ok label => (label, [prompt])
  | Raise _ => (None, [prompt])
  end.

(** [route] returns its result together with the prompts sent to the
    classifier while it ran. *)
Definition route (query : string) : res (RouteResult * list string) :=
  let '(intent0, entity, route0) := _rule_based_route query in
  let '(intent1, route1, calls) :=
    match llm_classifier with
    | Some clf =>
        if String.eqb route0 Route.OTHER then
          match _safe_llm_classify clf query with
          | (Some llm_label, calls) =>
              if negb (String.eqb llm_label "")
              then (llm_label, _intent_to_route llm_label, calls)
              else (intent0, route0, calls)
          | (None, calls) => (intent0, route0, calls)
          end
        else (intent0, route0, [])
    | None => (intent0, route0, [])
    end in
  _ <- SimpleLogger_call 0 ;;
  Ok ({| route := route1; intent := intent1;
         entity_type := entity; reason := None |}, calls).
End Methods.
End QueryRouter.

(* ================================================================== *)
(** * sql_engine/db_schema.py *)
(* ================================================================== *)

Record TableSchema : Type := {
  name : string;
  columns : list string;
  primary_key : option string
}.

(** [TableSchema.has_column]: [col in self.columns], for any object. *)
Definition has_column (ts : TableSchema) (col : pyval) : bool :=
  py_in_strs col (columns ts).

Module DBSchema.

(** The attribute [_tables] of an instance, as [__init__] loads it from
    [config/data_schema.yaml]: table name to table schema, in declaration
    order. *)
Record t : Type := {
  _tables : list (string * TableSchema)
}.

Section Methods.
Context {RT : PyRuntime}.
Variable self : t.

Fixpoint lookup_table (k : string) (m : list (string * TableSchema))
  : option TableSchema :=
  match m with
  | [] => None
  | (k', ts) :: rest => if String.eqb k k' then Some ts else lookup_table k rest
  end.

(** [self._tables.get(table)]: an unhashable key raises, a key that is
    not a string is bound to nothing. *)
Definition get (table : pyval) : res (option TableSchema) :=
  if negb (hashable table) then Raise TypeError
  else match table with
       | PStr t => Ok (lookup_table t (_tables self))
       | _ => Ok None
       end.

Definition ensure_table (table : pyval) : res TableSchema :=
  ts <- get table ;;
  match ts with
  | None => Raise (ValueError ("unknown table: " ++ py_str table))
  | Some ts => Ok ts
  end.
End Methods.
End DBSchema.

(* ================================================================== *)
(** * sql_engine/ir2sql.py *)
(* ================================================================== *)

Record SqlBuildResult : Type := {
  sql : string;
  params : list pyval
}.

Module IR2SQL.

(** The attributes [__init__] sets from [config/rules.yaml] and
    [config/data_schema.yaml]. *)
Record t : Type := {
  _schema : DBSchema.t;
  allowed_ops : list string;
  max_limit : Z
}.

Section Methods.
Context {RT : PyRuntime}.
Variable self : t.

(** One turn of the loop over [ir.get("filters") or []]; [acc] holds
    [where_sql_parts] and [params]. *)
Definition filter_step (table_schema : TableSchema)
    (acc : list string * list pyval) (cond : pyval)
  : res (list string * list pyval) :=
  let '(where_sql_parts, params) := acc in
  field <- obj_get cond "field" ;;
  op <- obj_get cond "op" ;;
  value <- obj_get cond "value" ;;
  if negb (truthy field) || negb (truthy op) then Ok acc
  else if negb (py_in_strs op (allowed_ops self)) then
    _ <- SimpleLogger_call 0 ;; Ok acc
  else if negb (has_column table_schema field) then
    _ <- SimpleLogger_call 0 ;; Ok acc
  else if py_eq_str op "between" then
    if negb (is_list_or_tuple value)
       || negb (length (seq_items value) =? 2)%nat
    then Ok acc
    else
      Ok (app where_sql_parts ["`" ++ py_str field ++ "` BETWEEN %s AND %s"],
          app params [nth 0 (seq_items value) PNone;
                      nth 1 (seq_items value) PNone])
  else if py_eq_str op "like" then
    Ok (app where_sql_parts ["`" ++ py_str field ++ "` LIKE %s"],
        app params [PStr (py_str value)])
  else
    Ok (app where_sql_parts ["`" ++ py_str field ++ "` " ++ py_str op ++ " %s"],
        app params [value]).

Fixpoint filter_loop (table_schema : TableSchema) (conds : list pyval)
    (acc : list string * list pyval) : res (list string * list pyval) :=
  match conds with
  | [] => Ok acc
  | cond :: rest =>
      acc' <- filter_step table_schema acc cond ;;
      filter_loop table_schema rest acc'
  end.

(** Lines 57-65: the text of the selected columns. *)
Definition select_sql (table_schema : TableSchema) (ir : dict) : res string :=
  let select_cols := py_or (dict_get ir "select") (PList [PStr "*"]) in
  if py_eq select_cols (PList [PStr "*"]) then Ok "*"
  else
    cs <- py_iter select_cols ;;
    let invalid := filter (fun c => negb (has_column table_schema c)) cs in
    if truthy (PList invalid) then
      Raise (ValueError ("invalid select columns: " ++ py_repr (PList invalid)))
    else Ok (join ", " (map (fun c => "`" ++ py_str c ++ "`") cs)).

(** Lines 97-99. *)
Definition where_clause (where_sql_parts : list string) : string :=
  match where_sql_parts with
  | [] => ""
  | _ => " WHERE " ++ join " AND " where_sql_parts
  end.

(** Lines 101-105: the value of [limit] that is written into the text. *)
Definition row_limit (ir : dict) : pyval :=
  let limit := dict_get ir "limit" in
  if is_none limit || negb (is_int limit) || (int_value limit <=? 0)%Z
  then PInt (max_limit self)
  else if (max_limit self <? int_value limit)%Z
       then PInt (max_limit self) else limit.

Definition build (ir : dict) : res SqlBuildResult :=
  let table_name := dict_get ir "table" in
  if negb (truthy table_name) then
    Raise (ValueError "IR missing 'table' field for SQL generation.")
  else
  table_schema <- DBSchema.ensure_table (_schema self) table_name ;;
  cols_sql <- select_sql table_schema ir ;;
  conds <- py_iter (py_or (dict_get ir "filters") (PList [])) ;;
  '(where_sql_parts, params) <- filter_loop table_schema conds ([], []) ;;
  let where_sql := where_clause where_sql_parts in
  let limit := row_limit ir in
  let sql := "SELECT " ++ cols_sql ++ " FROM " ++ py_str table_name
             ++ where_sql ++ " LIMIT " ++ py_str limit in
  _ <- SimpleLogger_call 0 ;;
  Ok {| sql := sql; params := params |}.
End Methods.
End IR2SQL.

(* ================================================================== *)
(** * validators/schema_validator.py *)
(* ================================================================== *)

Module IRSchemaValidator.

Record SchemaValidationResult : Type := {
  ok : bool;
  errors : list string
}.

(** The attributes [__init__] sets from the two configuration files.
    [query_type_decl] is the entry
    [intermediate_representations.unified_query_ir.schema.query_type] of
    [self._data_schema], the empty string when the entry is absent. *)
Record t : Type := {
  query_type_decl : pyval;
  required_fields : list string;
  max_filters : Z;
  allowed_ops : list string;
  allow_fuzzy : bool
}.

Section Methods.
Context {RT : PyRuntime}.
Variable self : t.

(** [s[len("ENUM["):-1]]: without the first five characters and the
    last one. *)
Definition enum_inner (s : string) : string :=
  String.concat "" (removelast (utf8_chars (drop 5 s))).

Definition _parse_enum (enum_decl : pyval) : list string :=
  match enum_decl with
  | PStr s =>
      if negb (prefix "ENUM[" s) then []
      else
        map str_strip
          (filter (fun v => negb (String.eqb (str_strip v) ""))
             (split_on "," (enum_inner s)))
  | _ => []
  end.

(** The errors [_validate_single_filter] appends to [errors]. *)
Definition _validate_single_filter (cond : pyval) (idx : nat)
  : res (list string) :=
  let i := Z_to_string (Z.of_nat idx) in
  field <- obj_get cond "field" ;;
  op <- obj_get cond "op" ;;
  let e_field :=
    if negb (truthy field) then ["filters[" ++ i ++ "].field is required"]
    else [] in
  let e_op :=
    if negb (truthy op) then ["filters[" ++ i ++ "].op is required"]
    else if negb (py_in_strs op (allowed_ops self)) then
      ["filters[" ++ i ++ "].op '" ++ py_str op ++ "' is not in allowed_ops="
         ++ repr_strs (allowed_ops self)]
    else [] in
  e_between <-
    (if py_eq_str op "between" then
       value <- obj_get cond "value" ;;
       if negb (is_list_or_tuple value
                && (length (seq_items value) =? 2)%nat
                && forallb (fun v => negb (is_none v)) (seq_items value))
       then Ok ["filters[" ++ i ++ "].value for 'between' must be 2-element list/tuple"]
       else Ok []
     else Ok []) ;;
  let e_like :=
    if py_eq_str op "like" && negb (allow_fuzzy self)
    then ["fuzzy search 'like' is disabled by rules.yaml"]
    else [] in
  Ok (e_field ++ e_op ++ e_between ++ e_like)%list.

(** [for idx, cond in enumerate(filters)] *)
Fixpoint validate_filters (conds : list pyval) (idx : nat)
  : res (list string) :=
  match conds with
  | [] => Ok []
  | cond :: rest =>
      e <- _validate_single_filter cond idx ;;
      es <- validate_filters rest (S idx) ;;
      Ok (e ++ es)%list
  end.

Definition validate (ir : dict) : res SchemaValidationResult :=
  let e_required :=
    map (fun field => "missing required field: " ++ field)
      (filter (fun field => negb (has_key ir field)) (required_fields self)) in
  let query_type := dict_get ir "query_type" in
  let enum_values := _parse_enum (query_type_decl self) in
  let e_query_type :=
    if negb (length enum_values =? 0)%nat
       && negb (py_in_strs query_type enum_values)
    then ["invalid query_type: " ++ py_str query_type
            ++ ", allowed=" ++ repr_strs enum_values]
    else [] in
  let filters := dict_get_default ir "filters" (PList []) in
  e_filters <-
    (if negb (is_list filters) then Ok ["filters must be a list"]
     else
       let n := Z.of_nat (length (seq_items filters)) in
       let e_many :=
         if (max_filters self <? n)%Z
         then ["too many filters: " ++ Z_to_string n ++ " > max_filters="
                 ++ Z_to_string (max_filters self)]
         else [] in
       e_each <- validate_filters (seq_items filters) 0 ;;
       Ok (e_many ++ e_each)%list) ;;
  let errors := (e_required ++ e_query_type ++ e_filters)%list in
  let ok := (length errors =? 0)%nat in
  _ <- (if ok then SimpleLogger_call 0      (* logger.debug(msg) *)
        else SimpleLogger_call 1) ;;         (* logger.warning(msg, joined) *)
  Ok {| ok := ok; errors := errors |}.
End Methods.
End IRSchemaValidator.

(* ================================================================== *)
(** * validators/business_validator.py *)
(* ================================================================== *)

Module BusinessValidator.

Record BusinessValidationResult : Type := {
  ok : bool;
  warnings : list string
}.

(** The attributes [__init__] sets from [config/rules.yaml]. *)
Record t : Type := {
  amount_max : Q;
  amount_min : Q
}.

Section Methods.
Context {RT : PyRuntime}.
Variable self : t.

(** [a is not None and a < b]: the comparison runs only when the first
    test passes. *)
Definition not_none_and (a : pyval) (c : res bool) : res bool :=
  if is_none a then Ok false else c.

Definition validate_ir (ir : dict) : res BusinessValidationResult :=
  amount_range <-
    obj_get (dict_get_default ir "structured_conditions" (PDict [])) "amount_range" ;;
  w_amount <-
    (match amount_range with
     | PDict d =>
         let min_v := dict_get d "min" in
         let max_v := dict_get d "max" in
         below <- not_none_and min_v (py_lt min_v (PFloat (amount_min self))) ;;
         let w1 :=
           if below
           then ["amount.min=" ++ py_str min_v ++ " < configured min_value="
                   ++ float_repr (amount_min self) ++ ", clipped."]
           else [] in
         above <- not_none_and max_v (py_gt max_v (PFloat (amount_max self))) ;;
         let w2 :=
           if above
           then ["amount.max=" ++ py_str max_v ++ " > configured max_value="
                   ++ float_repr (amount_max self) ++ ", clipped."]
           else [] in
         swapped <-
           not_none_and min_v (not_none_and max_v (py_gt min_v max_v)) ;;
         let w3 :=
           if swapped
           then ["amount_range.min > amount_range.max, will be swapped."]
           else [] in
         Ok (w1 ++ w2 ++ w3)%list
     | _ => Ok []
     end) ;;
  date_range <-
    obj_get (dict_get_default ir "structured_conditions" (PDict [])) "date_range" ;;
  let w_date :=
    match date_range with
    | PDict d =>
        let start := dict_get d "publish_start" in
        let end_ := dict_get d "publish_end" in
        if truthy start && truthy end_
           && String.ltb (py_str end_) (py_str start)
        then ["date_range.publish_start > publish_end."]
        else []
    | _ => []
    end in
  let warnings := (w_amount ++ w_date)%list in
  let ok := (length warnings =? 0)%nat in
  _ <- (if ok then SimpleLogger_call 0      (* logger.debug(msg) *)
        else SimpleLogger_call 1) ;;         (* logger.info(msg, joined) *)
  Ok {| ok := ok; warnings := warnings |}.
End Methods.
End BusinessValidator.

(* ================================================================== *)
(** * validators/confidence_checker.py *)
(* ================================================================== *)

Module ConfidenceChecker.

(** Scores are floats, carried as rationals; the row count is an [int]. *)
Record ConfidenceInput : Type := {
  retriever_scores : option (list Q);
  reranker_scores : option (list Q);
  sql_row_count : option Z
}.

Record ConfidenceResult : Type := {
  score : Q;
  is_confident : bool
}.

Record t : Type := {
  threshold : Q
}.

(** [max(xs)]: the first of the largest items; an empty argument is a
    [ValueError]. *)
Fixpoint max_from (cur : Q) (xs : list Q) : Q :=
  match xs with
  | [] => cur
  | x :: rest => max_from (if Qlt_bool cur x then x else cur) rest
  end.

Definition py_max (xs : list Q) : res Q :=
  match xs with
  | [] => Raise (ValueError "max() arg is an empty sequence")
  | x :: rest => Ok (max_from x rest)
  end.

(** [min(a, b)] and [max(a, b)] return [a] unless [b] is strictly better. *)
Definition py_min2 (a b : Q) : Q := if Qlt_bool b a then b else a.

Definition nonempty (xs : option (list Q)) : bool :=
  match xs with
  | Some (_ :: _) => true
  | _ => false
  end.

Definition items (xs : option (list Q)) : list Q :=
  match xs with
  | Some l => l
  | None => []
  end.

(** Lines 75-76: the row-count score [min(1.0, max(0, count) / 50.0)]. *)
Definition sql_score (count : Z) : Q :=
  py_min2 1 (inject_Z (Z.max 0 count) / 50).

(** The list [scores] as it stands before [final_score] is computed. *)
Definition collect_scores (inputs : ConfidenceInput) : res (list Q) :=
  s1 <- (if nonempty (retriever_scores inputs)
         then m <- py_max (items (retriever_scores inputs)) ;; Ok [m]
         else Ok []) ;;
  s2 <- (if nonempty (reranker_scores inputs)
         then m <- py_max (items (reranker_scores inputs)) ;; Ok [m]
         else Ok []) ;;
  let s3 :=
    match sql_row_count inputs with
    | Some c => [sql_score c]
    | None => []
    end in
  Ok (s1 ++ s2 ++ s3)%list.

Definition final_score_of (scores : list Q) : res Q :=
  match scores with
  | [] => Ok 0%Q
  | _ => py_max scores
  end.

Section Methods.
Variable self : t.

Definition evaluate (inputs : ConfidenceInput) : res ConfidenceResult :=
  scores <- collect_scores inputs ;;
  final_score <- final_score_of scores ;;
  let is_confident := Qle_bool (threshold self) final_score in
  (* logger.debug(fmt, scores, final_score, self.threshold, is_confident) *)
  _ <- SimpleLogger_call 4 ;;
  Ok {| score := final_score; is_confident := is_confident |}.
End Methods.
End ConfidenceChecker.

(* ================================================================== *)
(** * preprocess/llm_ir_generator.py *)
(* ================================================================== *)

(** [@dataclass class UnifiedQueryIR]: the generated [__init__] takes the
    nine fields by keyword, the last three defaulting to [None], and
    checks no types. *)
Module UnifiedQueryIR.

Record t : Type := {
  query_type : pyval;
  entity_type : pyval;
  fallback_enabled : pyval;
  original_query : pyval;
  structured_conditions : pyval;
  unstructured_keywords : pyval;
  table : pyval;
  filters : pyval;
  select : pyval
}.

Definition required : list string :=
  ["query_type"; "entity_type"; "fallback_enabled"; "original_query";
   "structured_conditions"; "unstructured_keywords"].

Definition optional : list string := ["table"; "filters"; "select"].

Definition is_field (k : string) : bool :=
  existsb (String.eqb k) (required ++ optional)%list.

(** The constructor called with the dictionary's entries as keyword
    arguments: an unknown keyword or a missing required
    field is a [TypeError]. *)
Definition init (kwargs : dict) : res t :=
  if negb (forallb (fun kv => is_field (fst kv)) kwargs) then Raise TypeError
  else if negb (forallb (has_key kwargs) required) then Raise TypeError
  else
    Ok {| query_type := dict_get kwargs "query_type";
          entity_type := dict_get kwargs "entity_type";
          fallback_enabled := dict_get kwargs "fallback_enabled";
          original_query := dict_get kwargs "original_query";
          structured_conditions := dict_get kwargs "structured_conditions";
          unstructured_keywords := dict_get kwargs "unstructured_keywords";
          table := dict_get kwargs "table";
          filters := dict_get kwargs "filters";
          select := dict_get kwargs "select" |}.
End UnifiedQueryIR.

(** [LlmClient = Callable[[str], str]]: the call may raise and may return
    any object. *)
Definition LlmClient : Type := string -> res pyval.

Module LlmIRGenerator.

(** The attributes [__init__] sets: the optional client, and the router
    (built without a classifier) and the two validators, each with the
    configuration it loads. *)
Record t : Type := {
  _llm_client : option LlmClient;
  _router_intent_map : list (string * dict);
  _schema_validator : IRSchemaValidator.t;
  _business_validator : BusinessValidator.t
}.

Section Methods.
Context {RT : PyRuntime}.
Variable self : t.

Definition option_str (o : option string) : string :=
  match o with
  | Some s => s
  | None => "None"
  end.

Definition _build_rule_based_ir (query : string) (route_result : RouteResult)
  : res dict :=
  let qt := route route_result in
  let entity :=
    match entity_type route_result with
    | Some e => if String.eqb e "" then "unknown" else e
    | None => "unknown"
    end in
  let structured : dict :=
    ((if contains "公司" query || contains "企业" query
      then [("company_name", PStr query)] else [])
     ++
     (if contains "项目" query || contains "招标" query || contains "中标" query
      then [("project_name", PStr query)] else []))%list in
  let unstructured_keywords :=
    filter (fun w => negb (String.eqb w ""))
      (str_split (replace "，" " " query)) in
  let ir : dict :=
    [("query_type", PStr qt);
     ("entity_type", PStr entity);
     ("fallback_enabled", PBool true);
     ("original_query", PStr query);
     ("structured_conditions", PDict structured);
     ("unstructured_keywords", PList (map PStr unstructured_keywords))] in
  let ir :=
    if String.eqb qt "sql" || String.eqb qt "hybrid"
    then (ir ++ [("table", PStr "tender_project");
                 ("select", PList [PStr "*"]);
                 ("filters", PList [])])%list
    else ir in
  _ <- SimpleLogger_call 0 ;;
  Ok ir.

Definition llm_prompt (query : string) (route_result : RouteResult) : string :=
  let nl := String "010" "" in
  "你是招投标行业智能助手的解析模块，请将用户问题转换为统一的 JSON IR。" ++ nl
  ++ "字段要求：" ++ nl
  ++ "- query_type: 'rag' | 'sql' | 'hybrid'" ++ nl
  ++ "- entity_type: 'policy' | 'opinion' | 'company' | 'tender' | 'material' | 'price'" ++ nl
  ++ "- fallback_enabled: bool" ++ nl
  ++ "- original_query: str" ++ nl
  ++ "- structured_conditions: 对公司/项目/金额/时间等显式条件进行结构化" ++ nl
  ++ "- unstructured_keywords: 用于 RAG 的关键词列表" ++ nl
  ++ "若 query_type 属于 'sql' 或 'hybrid'，还需补充：" ++ nl
  ++ "- table: 目标主表，如 'tender_project'、'company_master' 等" ++ nl
  ++ "- select: 需要返回的字段列表" ++ nl
  ++ "- filters: 由 {field, op, value} 组成的列表，op 只允许：=, >, <, >=, <=, between, like"
  ++ nl ++ nl
  ++ "用户问题：" ++ query ++ nl
  ++ "Router 预判：query_type=" ++ route route_result
  ++ ", entity_type=" ++ option_str (entity_type route_result) ++ nl
  ++ "请直接输出 JSON，不要包含额外说明。".

(** [json.loads(raw)]: only text is decoded. *)
Definition loads (raw : pyval) : res pyval :=
  match raw with
  | PStr s => json_loads s
  | _ => Raise TypeError
  end.

Definition _build_llm_ir (client : LlmClient) (query : string)
    (route_result : RouteResult) : res dict :=
  try_except
    (raw <- client (llm_prompt query route_result) ;;
     ir <- loads raw ;;
     _ <- obj_get ir "query_type" ;;
     _ <- SimpleLogger_call 0 ;;
     match ir with
     | PDict d => Ok d
     | _ => Raise AttributeError
     end)
    (fun _ =>
       _ <- SimpleLogger_call 0 ;;
       _build_rule_based_ir query route_result).

Definition generate (query : string) : res UnifiedQueryIR.t :=
  '(route_result, _) <- QueryRouter.route (_router_intent_map self) None query ;;
  ir <- match _llm_client self with
        | None => _build_rule_based_ir query route_result
        | Some client => _build_llm_ir client query route_result
        end ;;
  schema_result <- IRSchemaValidator.validate (_schema_validator self) ir ;;
  _ <- (if negb (IRSchemaValidator.ok schema_result)
        then SimpleLogger_call 0 else Ok tt) ;;
  biz_result <- BusinessValidator.validate_ir (_business_validator self) ir ;;
  _ <- (if negb (BusinessValidator.ok biz_result)
        then SimpleLogger_call 0 else Ok tt) ;;
  UnifiedQueryIR.init ir.
End Methods.
End LlmIRGenerator.

(* ================================================================== *)
(** * sql_engine/db_schema.py: loading the schema *)
(* ================================================================== *)

(** [v.items()] and [v.get(k, default)] on an arbitrary object: only
    dictionaries have them. *)
Definition obj_items (v : pyval) : res (list (string * pyval)) :=
  match v with
  | PDict d => Ok d
  | _ => Raise AttributeError
  end.

Definition obj_get_default (v : pyval) (k : string) (default : pyval) : res pyval :=
  match v with
  | PDict d => Ok (dict_get_default d k default)
  | _ => Raise AttributeError
  end.

(** [tables[name] = ts]: the binding of an existing key is replaced in
    place, a new key is added at the end. *)
Fixpoint set_table (name : string) (ts : TableSchema)
    (tables : list (string * TableSchema)) : list (string * TableSchema) :=
  match tables with
  | [] => [(name, ts)]
  | (k, v) :: rest =>
      if String.eqb name k then (k, ts) :: rest
      else (k, v) :: set_table name ts rest
  end.

Section DBSchemaLoading.
Context {RT : PyRuntime}.

(** [s.upper()], with the case tables of the interpreter. *)
Variable str_upper : string -> string.

(** Lines 45-48: the first column whose declaration is a string that
    holds [PRIMARY KEY] once put in upper case. *)
Fixpoint find_primary_key (cols_def : list (string * pyval)) : option string :=
  match cols_def with
  | [] => None
  | (col_name, decl) :: rest =>
      match decl with
      | PStr s =>
          if contains "PRIMARY KEY" (str_upper s) then Some col_name
          else find_primary_key rest
      | _ => find_primary_key rest
      end
  end.

(** Lines 41-52, for one entry of [sql_tables]. *)
Definition load_table (name : string) (t_cfg : pyval) : res TableSchema :=
  cols_def <- obj_get_default t_cfg "columns" (PDict []) ;;
  cols <- obj_items cols_def ;;
  Ok {| name := name;
        columns := map fst cols;
        primary_key := find_primary_key cols |}.

(** The loop of line 40 over the entries of [sql_tables]. *)
Fixpoint load_tables (entries : list (string * pyval))
    (tables : list (string * TableSchema))
  : res (list (string * TableSchema)) :=
  match entries with
  | [] => Ok tables
  | (name, t_cfg) :: rest =>
      ts <- load_table name t_cfg ;;
      load_tables rest (set_table name ts tables)
  end.

(** [DBSchema.__init__], from the document [cfg] read in
    [config/data_schema.yaml]. *)
Definition DBSchema_init (cfg : pyval) : res DBSchema.t :=
  sql_tables <- obj_get_default cfg "sql_tables" (PDict []) ;;
  entries <- obj_items sql_tables ;;
  tables <- load_tables entries [] ;;
  _ <- SimpleLogger_call 0 ;;
  Ok {| DBSchema._tables := tables |}.
End DBSchemaLoading.

(* ================================================================== *)
(** * preprocess/llm_ir_generator.py: [UnifiedQueryIR.to_dict] *)
(* ================================================================== *)

(** [asdict(self)]: the nine fields, in declaration order. *)
Definition UnifiedQueryIR_to_dict (x : UnifiedQueryIR.t) : dict :=
  [("query_type", UnifiedQueryIR.query_type x);
   ("entity_type", UnifiedQueryIR.entity_type x);
   ("fallback_enabled", UnifiedQueryIR.fallback_enabled x);
   ("original_query", UnifiedQueryIR.original_query x);
   ("structured_conditions", UnifiedQueryIR.structured_conditions x);
   ("unstructured_keywords", UnifiedQueryIR.unstructured_keywords x);
   ("table", UnifiedQueryIR.table x);
   ("filters", UnifiedQueryIR.filters x);
   ("select", UnifiedQueryIR.select x)].

(* ================================================================== *)
(** * answer/answer_generator.py *)
(* ================================================================== *)

Module AnswerGenerator.

Record Answer : Type := {
  text : pyval;
  citations : list dict;
  route : string;
  debug : dict
}.

(** The attributes [__init__] sets: the client, the template read from
    [prompts/answer_prompt.txt] and the fallback text of
    [config/rules.yaml]. *)
Record t : Type := {
  _llm_client : LlmClient;
  _answer_prompt : string;
  uncertainty_response : pyval
}.

Section Methods.
Context {RT : PyRuntime}.

(** [tmpl.format] applied to the named fields; it raises on a template
    that names other fields or is ill-formed. *)
Variable str_format : string -> list (string * pyval) -> res string.
Variable self : t.

Definition _format_prompt (query route : string) (ir : dict) (context : string)
  : res string :=
  str_format (_answer_prompt self)
    [("query", PStr query); ("route", PStr route);
     ("ir", PDict ir); ("context", PStr context)].

(** [generate] returns the answer together with the prompts sent to the
    client while it ran; [context_text] is [context.text]. *)
Definition generate (query route : string) (ir : dict) (context_text : string)
    (citations : list dict) (is_confident : bool)
  : res (Answer * list string) :=
  let debug := [("ir", PDict ir); ("context", PStr context_text)] in
  if negb is_confident then
    Ok ({| text := uncertainty_response self; citations := citations;
           route := route; debug := debug |}, [])
  else
    prompt <- _format_prompt query route ir context_text ;;
    answer_text <-
      try_except (_llm_client self prompt)
        (fun _ => _ <- SimpleLogger_call 0 ;; Ok (uncertainty_response self)) ;;
    Ok ({| text := answer_text; citations := citations;
           route := route; debug := debug |}, [prompt]).
End Methods.
End AnswerGenerator.

(* ================================================================== *)
(** * api/main.py *)
(* ================================================================== *)

Module Api.

(** [RerankResult], of [retrieval/reranker.py]. *)
Record RerankResult : Type := {
  id : string;
  text : string;
  metadata : pyval;
  score : Q
}.

(** The process-level singletons [query_endpoint] uses that are modelled
    here; the router is built without a classifier. *)
Record t : Type := {
  router_intent_map : list (string * dict);
  ir_generator : LlmIRGenerator.t;
  ir2sql : IR2SQL.t;
  confidence_checker : ConfidenceChecker.t
}.

Section Endpoint.
Context {RT : PyRuntime}.

(** The collaborators that are not modelled: retrieval followed by
    re-ranking, the execution of a query, and the steps 5 and 6 of the
    endpoint (context, citations, answer, response), each of which may
    raise. *)
Variable Response : Type.
Variable retrieve_and_rerank : string -> res (list RerankResult).
Variable execute : string -> list pyval -> res (list dict).
Variable steps_5_6 :
  RouteResult -> dict -> list RerankResult -> list dict -> pyval ->
  ConfidenceChecker.ConfidenceResult -> res Response.
Variable self : t.

Definition scores_of (rag_docs : list RerankResult) : option (list Q) :=
  match rag_docs with
  | [] => None
  | _ => Some (map score rag_docs)
  end.

Definition count_of (sql_rows : list dict) : option Z :=
  match sql_rows with
  | [] => None
  | _ => Some (Z.of_nat (length sql_rows))
  end.

Definition query_endpoint (query : string) : res Response :=
  _ <- SimpleLogger_call 0 ;;
  '(route_result, _) <- QueryRouter.route (router_intent_map self) None query ;;
  ir_obj <- LlmIRGenerator.generate (ir_generator self) query ;;
  let ir := UnifiedQueryIR_to_dict ir_obj in
  rag_docs <-
    (if String.eqb (route route_result) "rag"
        || String.eqb (route route_result) "hybrid"
     then retrieve_and_rerank query
     else Ok []) ;;
  '(sql_rows, sql_table) <-
    (if String.eqb (route route_result) "sql"
        || String.eqb (route route_result) "hybrid"
     then
       sql_build <- IR2SQL.build (ir2sql self) ir ;;
       rows <- execute (sql sql_build) (params sql_build) ;;
       Ok (rows, dict_get ir "table")
     else Ok ([], PNone)) ;;
  let conf_input :=
    {| ConfidenceChecker.retriever_scores := scores_of rag_docs;
       ConfidenceChecker.reranker_scores := scores_of rag_docs;
       ConfidenceChecker.sql_row_count := count_of sql_rows |} in
  conf_result <- ConfidenceChecker.evaluate (confidence_checker self) conf_input ;;
  steps_5_6 route_result ir rag_docs sql_rows sql_table conf_result.
End Endpoint.
End Api.

(* ================================================================== *)
(** * Vocabulary of the statements *)
(* ================================================================== *)

(** ** The contribution of one filter to the synthesized query *)

Section FilterContribution.
Context {RT : PyRuntime}.
Variable self : IR2SQL.t.
Variable table_schema : TableSchema.

(** [value] is a list or tuple of exactly two items. *)
Definition is_pair (value : pyval) : bool :=
  is_list_or_tuple value && (length (seq_items value) =? 2)%nat.

(** The filter passes every test of the loop body and is written into
    the WHERE clause. *)
Definition emitted (cond : pyval) : bool :=
  match cond with
  | PDict d =>
      truthy (dict_get d "field")
      && truthy (dict_get d "op")
      && py_in_strs (dict_get d "op") (IR2SQL.allowed_ops self)
      && has_column table_schema (dict_get d "field")
      && (negb (py_eq_str (dict_get d "op") "between")
          || is_pair (dict_get d "value"))
  | _ => false
  end.

(** The condition text of an emitted filter. *)
Definition clause (cond : pyval) : string :=
  match cond with
  | PDict d =>
      let field := py_str (dict_get d "field") in
      if py_eq_str (dict_get d "op") "between"
      then "`" ++ field ++ "` BETWEEN %s AND %s"
      else if py_eq_str (dict_get d "op") "like"
      then "`" ++ field ++ "` LIKE %s"
      else "`" ++ field ++ "` " ++ py_str (dict_get d "op") ++ " %s"
  | _ => ""
  end.

(** The values an emitted filter hands over as parameters: the two
    items of a [between] pair in their order, the text of a [like]
    value, the value itself otherwise. *)
Definition clause_params (cond : pyval) : list pyval :=
  match cond with
  | PDict d =>
      let value := dict_get d "value" in
      if py_eq_str (dict_get d "op") "between"
      then [nth 0 (seq_items value) PNone; nth 1 (seq_items value) PNone]
      else if py_eq_str (dict_get d "op") "like"
      then [PStr (py_str value)]
      else [value]
  | _ => []
  end.
End FilterContribution.

(** The sequence the loop of [build] runs over. *)
Definition filters_of (ir : dict) : res (list pyval) :=
  py_iter (py_or (dict_get ir "filters") (PList [])).

(** ** IRs that differ only in filter values *)

(** Two filters with the same field and operator; when the operator is
    [between], both values are pairs or neither is. *)
Definition cond_similar (c1 c2 : pyval) : Prop :=
  match c1, c2 with
  | PDict d1, PDict d2 =>
      dict_get d1 "field" = dict_get d2 "field"
      /\ dict_get d1 "op" = dict_get d2 "op"
      /\ (py_eq_str (dict_get d1 "op") "between" = true ->
          is_pair (dict_get d1 "value") = is_pair (dict_get d2 "value"))
  | _, _ => c1 = c2
  end.

Definition filters_similar (f1 f2 : pyval) : Prop :=
  match f1, f2 with
  | PList l1, PList l2 => Forall2 cond_similar l1 l2
  | PTuple l1, PTuple l2 => Forall2 cond_similar l1 l2
  | _, _ => f1 = f2
  end.

Definition ir_similar (ir1 ir2 : dict) : Prop :=
  dict_get ir1 "table" = dict_get ir2 "table"
  /\ dict_get ir1 "select" = dict_get ir2 "select"
  /\ dict_get ir1 "limit" = dict_get ir2 "limit"
  /\ filters_similar (dict_get ir1 "filters") (dict_get ir2 "filters").

(** ** Counting in the query text *)

(** [c in s] for a character. *)
Fixpoint char_in (c : ascii) (s : string) : bool :=
  match s with
  | EmptyString => false
  | String x r => Ascii.eqb c x || char_in c r
  end.

(** A pattern that holds none of the characters the synthesizer puts
    between the pieces of a query: space, backquote and comma. *)
Definition sep_free (p : string) : bool :=
  negb (String.eqb p "")
  && negb (char_in " " p) && negb (char_in "`" p) && negb (char_in "," p).

(** A pattern that can be counted piece by piece in a synthesized query:
    it holds no separator, does not start like a number or like [True],
    and is not part of the fixed words [SELECT], [FROM], [AND] and [*]. *)
Definition countable (p : string) : bool :=
  sep_free p
  && match p with
     | EmptyString => false
     | String h _ => negb (char_in h "-0123456789True")
     end
  && (occ p "SELECT" =? 0)%nat && (occ p "FROM" =? 0)%nat
  && (occ p "AND" =? 0)%nat && (occ p "*" =? 0)%nat.

(** ** Configurations whose identifiers are plain *)

(** The table names, column names and allowed operators come from the
    configuration files and are written into the query text as they are.
    A name is plain when it holds neither a placeholder nor one of the
    two clause keywords. *)
Definition plain (s : string) : bool :=
  (occ "%s" s =? 0)%nat && (occ "LIMIT" s =? 0)%nat && (occ "WHERE" s =? 0)%nat.

Definition plain_table (entry : string * TableSchema) : bool :=
  plain (fst entry) && forallb plain (columns (snd entry)).

Definition plain_config (self : IR2SQL.t) : bool :=
  forallb plain_table (DBSchema._tables (IR2SQL._schema self))
  && forallb plain (IR2SQL.allowed_ops self).

(** ** The result of a successful synthesis *)

Section BuiltQuery.
Context {RT : PyRuntime}.
Variable self : IR2SQL.t.

(** The text and the parameters [build] answers, given what the table,
    the columns and the filters resolve to. *)
Definition built (ir : dict) (t cols_sql : string) (ts : TableSchema)
    (conds : list pyval) : SqlBuildResult :=
  let kept := filter (emitted self ts) conds in
  {| sql := "SELECT " ++ cols_sql ++ " FROM " ++ t
            ++ IR2SQL.where_clause (map clause kept)
            ++ " LIMIT " ++ py_str (IR2SQL.row_limit self ir);
     params := flat_map clause_params kept |}.

End BuiltQuery.

(** ** Ordering of confidence inputs *)

(** One input is below another when both carry the same signals and
    every score and the row count of the first is at most the
    corresponding one of the second. *)
Definition scores_le (a b : option (list Q)) : Prop :=
  match a, b with
  | None, None => True
  | Some xs, Some ys => Forall2 Qle xs ys
  | _, _ => False
  end.

Definition count_le (a b : option Z) : Prop :=
  match a, b with
  | None, None => True
  | Some c, Some c' => (c <= c')%Z
  | _, _ => False
  end.

Definition input_le (a b : ConfidenceChecker.ConfidenceInput) : Prop :=
  scores_le (ConfidenceChecker.retriever_scores a) (ConfidenceChecker.retriever_scores b)
  /\ scores_le (ConfidenceChecker.reranker_scores a) (ConfidenceChecker.reranker_scores b)
  /\ count_le (ConfidenceChecker.sql_row_count a) (ConfidenceChecker.sql_row_count b).

(** ** IRs the structural validator accepts *)

Section Acceptance.
Context {RT : PyRuntime}.
Variable self : IRSchemaValidator.t.

(** A filter to which [_validate_single_filter] has no objection. *)
Definition filter_accepted (cond : pyval) : bool :=
  match cond with
  | PDict d =>
      let op := dict_get d "op" in
      let value := dict_get d "value" in
      truthy (dict_get d "field")
      && truthy op
      && py_in_strs op (IRSchemaValidator.allowed_ops self)
      && (negb (py_eq_str op "between")
          || (is_list_or_tuple value
              && (length (seq_items value) =? 2)%nat
              && forallb (fun v => negb (is_none v)) (seq_items value)))
      && (negb (py_eq_str op "like") || IRSchemaValidator.allow_fuzzy self)
  | _ => false
  end.

(** An IR to which [validate] has no objection: the required fields are
    keys, the query type is one of the declared ones (when some are
    declared), and [filters], an empty list when the key is missing, is a
    list of at most [max_filters] accepted filters. *)
Definition accepted (ir : dict) : bool :=
  let enum_values :=
    IRSchemaValidator._parse_enum (IRSchemaValidator.query_type_decl self) in
  let filters := dict_get_default ir "filters" (PList []) in
  forallb (has_key ir) (IRSchemaValidator.required_fields self)
  && ((length enum_values =? 0)%nat
      || py_in_strs (dict_get ir "query_type") enum_values)
  && is_list filters
  && (Z.of_nat (length (seq_items filters)) <=? IRSchemaValidator.max_filters self)%Z
  && forallb filter_accepted (seq_items filters).
End Acceptance.

(** ** Sample configuration and IR *)

Definition sample_schema : DBSchema.t := {|
  DBSchema._tables :=
    [("tender_project",
      {| name := "tender_project";
         columns := ["id"; "title"; "amount"; "publish_date"];
         primary_key := Some "id" |});
     ("company_master",
      {| name := "company_master";
         columns := ["id"; "company_name"];
         primary_key := Some "id" |})]
|}.

Definition sample_synthesizer : IR2SQL.t := {|
  IR2SQL._schema := sample_schema;
  IR2SQL.allowed_ops := ["="; ">"; "<"; ">="; "<="; "between"; "like"];
  IR2SQL.max_limit := 100
|}.

Definition filter_cond (field op : string) (value : pyval) : pyval :=
  PDict [("field", PStr field); ("op", PStr op); ("value", value)].

(** The IR of the documented example, with the filter keyed the way
    [build] reads it ([op]) and the way the data model names it
    ([operator]). *)
Definition amount_ir : dict :=
  [("table", PStr "tender_project");
   ("select", PList [PStr "*"]);
   ("filters", PList [filter_cond "amount" ">=" (PInt 1000000)])].

(** The same IR with a hostile text as the filter value. *)
Definition hostile_ir : dict :=
  [("table", PStr "tender_project");
   ("select", PList [PStr "*"]);
   ("filters", PList [filter_cond "amount" ">=" (PStr "0 OR 1=1; --")])].

(** An IR with a disallowed operator, an unknown field, a [between]
    pair and a [like] pattern. *)
Definition mixed_ir : dict :=
  [("table", PStr "tender_project");
   ("select", PList [PStr "id"; PStr "title"]);
   ("filters",
    PList [filter_cond "amount" "regexp" (PStr ".*");
           filter_cond "amount" "between" (PList [PInt 10; PInt 20]);
           filter_cond "budget" "=" (PInt 7);
           filter_cond "title" "like" (PStr "%bridge%")]);
   ("limit", PInt 500)].

Definition amount_ir_operator_key : dict :=
  [("table", PStr "tender_project");
   ("select", PList [PStr "*"]);
   ("filters", PList [PDict [("field", PStr "amount");
                             ("operator", PStr ">=");
                             ("value", PInt 1000000)]])].

(** A generator whose client always replies with the empty JSON object. *)
Definition empty_object_generator : LlmIRGenerator.t := {|
  LlmIRGenerator._llm_client := Some (fun _ => Ok (PStr "{}"));
  LlmIRGenerator._router_intent_map := [];
  LlmIRGenerator._schema_validator := {|
    IRSchemaValidator.query_type_decl := PStr "ENUM[rag, sql, hybrid]";
    IRSchemaValidator.required_fields := [];
    IRSchemaValidator.max_filters := 5;
    IRSchemaValidator.allowed_ops := ["="; ">"; "<"; ">="; "<="; "between"; "like"];
    IRSchemaValidator.allow_fuzzy := false |};
  LlmIRGenerator._business_validator := {|
    BusinessValidator.amount_max := 1000000000;
    BusinessValidator.amount_min := 0 |}
|}.

(** ** The registry while it is loaded *)

(** What holds of every table of the registry while it is loaded. *)
Definition loaded_from {RT : PyRuntime} (str_upper : string -> string)
    (entries : list (string * pyval))
    (tables : list (string * TableSchema)) : Prop :=
  forall t ts,
    DBSchema.lookup_table t tables = Some ts ->
    exists t_cfg, In (t, t_cfg) entries /\ load_table str_upper t t_cfg = Ok ts.


(** ** Further samples *)

Definition ascii_upper (c : ascii) : ascii :=
  let n := nat_of_ascii c in
  if (97 <=? n)%nat && (n <=? 122)%nat then ascii_of_nat (n - 32) else c.

(** A schema document whose load is [sample_schema]. *)
Definition sample_schema_document : pyval :=
  PDict
    [("sql_tables",
      PDict
        [("tender_project",
          PDict [("columns",
                  PDict [("id", PStr "bigint primary key");
                         ("title", PStr "varchar(255)");
                         ("amount", PStr "decimal(18,2)");
                         ("publish_date", PStr "date")])]);
         ("company_master",
          PDict [("columns",
                  PDict [("id", PStr "BIGINT PRIMARY KEY");
                         ("company_name", PStr "varchar(255)")])])])].

Definition sample_validator : IRSchemaValidator.t := {|
  IRSchemaValidator.query_type_decl := PStr "ENUM[rag, sql, hybrid]";
  IRSchemaValidator.required_fields := ["query_type"; "original_query"];
  IRSchemaValidator.max_filters := 5;
  IRSchemaValidator.allowed_ops := ["="; ">"; "<"; ">="; "<="; "between"; "like"];
  IRSchemaValidator.allow_fuzzy := false
|}.

Definition sample_business_validator : BusinessValidator.t := {|
  BusinessValidator.amount_max := 1000000000;
  BusinessValidator.amount_min := 0
|}.

(** A generator without a client. *)
Definition rule_only_generator : LlmIRGenerator.t := {|
  LlmIRGenerator._llm_client := None;
  LlmIRGenerator._router_intent_map := [];
  LlmIRGenerator._schema_validator := sample_validator;
  LlmIRGenerator._business_validator := sample_business_validator
|}.

(** An IR the sample validator lets through. *)
Definition validated_ir : dict :=
  [("query_type", PStr "sql");
   ("original_query", PStr "金额在一百万到五百万之间的项目");
   ("table", PStr "tender_project");
   ("select", PList [PStr "id"; PStr "title"]);
   ("filters",
    PList [filter_cond "amount" "between" (PList [PInt 1000000; PInt 5000000]);
           filter_cond "publish_date" ">=" (PStr "2024-01-01")])].

(** An IR with an amount range. *)
Definition ranged_ir : dict :=
  [("query_type", PStr "sql");
   ("structured_conditions",
    PDict [("amount_range",
            PDict [("min", PInt 1000000); ("max", PInt 5000000)])])].



(* ================================================================== *)
(** * Properties of the intent router *)
(* ================================================================== *)

Section RouterFacts.
Context {RT : PyRuntime}.

(** The six exits of the keyword rules. *)
Lemma rule_based_route_exits (query : string) :
  In (QueryRouter._rule_based_route query)
     [("policy_query", Some "policy", Route.RAG);
      ("opinion_query", Some "opinion", Route.RAG);
      ("hybrid_query", Some "tender", Route.HYBRID);
      ("tender_query", Some "tender", Route.SQL);
      ("company_query", Some "company", Route.SQL);
      ("items_query", Some "price", Route.SQL);
      ("general_query", None, Route.RAG)].
Proof.
  unfold QueryRouter._rule_based_route.
  repeat match goal with
         | |- context [if ?b then _ else _] => destruct b
         end; simpl; tauto.
Qed.

Lemma rule_based_route_not_other (query : string) :
  String.eqb (snd (QueryRouter._rule_based_route query)) Route.OTHER = false.
Proof.
  pose proof (rule_based_route_exits query) as H.
  simpl in H.
  repeat (destruct H as [H | H]; [rewrite <- H; reflexivity | ]).
  contradiction.
Qed.

(** The policy rule is tried first: a query that mentions a policy word
    is routed to the policy exit whatever else it mentions. *)
Lemma policy_rule_wins (query : string) :
  any_in ["政策"; "扶持"; "规范"; "办法"; "通知"; "条例"] (str_lower query) = true ->
  QueryRouter._rule_based_route query = ("policy_query", Some "policy", Route.RAG).
Proof.
  intros H. unfold QueryRouter._rule_based_route. rewrite H. reflexivity.
Qed.

(** The hybrid exit is taken exactly by the queries that pass the first
    two rules, mention a tender word and mention a subsidy word. *)
Lemma hybrid_exit_iff (query : string) :
  QueryRouter._rule_based_route query = ("hybrid_query", Some "tender", Route.HYBRID)
  <->
  any_in ["政策"; "扶持"; "规范"; "办法"; "通知"; "条例"] (str_lower query) = false
  /\ any_in ["舆情"; "口碑"; "负面"; "风险"; "投诉"; "舆论"] (str_lower query) = false
  /\ any_in ["招标"; "中标"; "投标"; "项目"; "标段"] (str_lower query) = true
  /\ any_in ["政策"; "扶持"; "补贴"; "优惠"] (str_lower query) = true.
Proof.
  unfold QueryRouter._rule_based_route.
  repeat match goal with
         | |- context [if ?b then _ else _] => destruct b
         end; split; intros H; try discriminate H;
    try (decompose [and] H; discriminate); auto.
Qed.

(** C10.  For every query and whatever classifier is configured,
    [route] returns a result whose route is "rag", "sql" or "hybrid";
    the rule path never answers "other", so no prompt is ever sent to
    the classifier and the result is the one obtained without it. *)
Theorem route_never_consults_classifier
    (intent_map : list (string * dict)) (clf : option LlmClassifier)
    (query : string) :
  exists r : RouteResult,
    QueryRouter.route intent_map clf query = Ok (r, [])
    /\ In (route r) [Route.RAG; Route.SQL; Route.HYBRID]
    /\ (intent r, entity_type r, route r) = QueryRouter._rule_based_route query
    /\ QueryRouter.route intent_map clf query
       = QueryRouter.route intent_map None query.
Proof.
  unfold QueryRouter.route.
  pose proof (rule_based_route_not_other query) as Hother.
  pose proof (rule_based_route_exits query) as Hexits.
  destruct (QueryRouter._rule_based_route query) as [[i e] r].
  simpl in Hother. rewrite Hother.
  eexists. split.
  - destruct clf; reflexivity.
  - simpl. repeat split.
    + simpl in Hexits.
      repeat (destruct Hexits as [Hexits | Hexits];
              [inversion Hexits; subst; simpl; tauto | ]).
      contradiction.
    + destruct clf; reflexivity.
Qed.
End RouterFacts.

(** C3.  The query "招标政策" holds a tender word and a policy word and
    no sentiment word; the router answers the policy route, not the
    hybrid one. *)
Theorem route_tender_with_policy_word :
  any_in ["招标"; "中标"; "投标"; "项目"; "标段"] "招标政策" = true
  /\ any_in ["政策"; "扶持"; "补贴"; "优惠"] "招标政策" = true
  /\ any_in ["舆情"; "口碑"; "负面"; "风险"; "投诉"; "舆论"] "招标政策" = false
  /\ QueryRouter.route (RT := ascii_runtime) [] None "招标政策"
     = Ok ({| route := "rag"; intent := "policy_query";
              entity_type := Some "policy"; reason := None |}, []).
Proof. vm_compute. repeat split; reflexivity. Qed.

(* ================================================================== *)
(** * Properties of the confidence fuser *)
(* ================================================================== *)

Section ConfidenceFacts.
Import ConfidenceChecker.

Lemma Qlt_bool_iff (a b : Q) : Qlt_bool a b = true <-> (a < b)%Q.
Proof.
  unfold Qlt_bool. rewrite negb_true_iff.
  split; intros H.
  - apply Qnot_le_lt. intros Hle. apply Qle_bool_iff in Hle. congruence.
  - destruct (Qle_bool b a) eqn:E; [ | reflexivity].
    apply Qle_bool_iff in E. exfalso. exact (Qlt_not_le _ _ H E).
Qed.

Lemma Qlt_bool_false (a b : Q) : Qlt_bool a b = false <-> (b <= a)%Q.
Proof.
  unfold Qlt_bool. rewrite negb_false_iff. apply Qle_bool_iff.
Qed.

(** ** What the arithmetic before the log call computes *)

Lemma max_from_upper (xs : list Q) :
  forall cur, (cur <= max_from cur xs)%Q
              /\ Forall (fun x => (x <= max_from cur xs)%Q) xs.
Proof.
  induction xs as [ | x rest IH]; intros cur; simpl.
  - split; [apply Qle_refl | constructor].
  - destruct (Qlt_bool cur x) eqn:E.
    + apply Qlt_bool_iff in E. destruct (IH x) as [H1 H2]. split.
      * apply Qle_trans with x; [apply Qlt_le_weak; exact E | exact H1].
      * constructor; assumption.
    + apply Qlt_bool_false in E. destruct (IH cur) as [H1 H2]. split.
      * exact H1.
      * constructor; [apply Qle_trans with cur; assumption | exact H2].
Qed.

Lemma max_from_member (xs : list Q) :
  forall cur, In (max_from cur xs) (cur :: xs).
Proof.
  induction xs as [ | x rest IH]; intros cur; simpl.
  - left; reflexivity.
  - destruct (Qlt_bool cur x).
    + right. apply IH.
    + destruct (IH cur) as [H | H]; [left; exact H | right; right; exact H].
Qed.

Lemma max_from_monotone (xs ys : list Q) :
  Forall2 Qle xs ys ->
  forall cur cur', (cur <= cur')%Q ->
                   (max_from cur xs <= max_from cur' ys)%Q.
Proof.
  induction 1 as [ | x y xs ys Hxy Hrest IH]; intros cur cur' Hcur; simpl.
  - exact Hcur.
  - apply IH.
    destruct (Qlt_bool cur x) eqn:E1; destruct (Qlt_bool cur' y) eqn:E2.
    + exact Hxy.
    + apply Qlt_bool_false in E2. apply Qle_trans with y; assumption.
    + apply Qlt_bool_iff in E2.
      apply Qlt_le_weak. apply Qle_lt_trans with cur'; assumption.
    + exact Hcur.
Qed.

Lemma sql_score_monotone (c c' : Z) :
  (c <= c')%Z -> (sql_score c <= sql_score c')%Q.
Proof.
  intros H. unfold sql_score, py_min2.
  assert (Hq : (inject_Z (Z.max 0 c) / 50 <= inject_Z (Z.max 0 c') / 50)%Q).
  { apply Qmult_le_compat_r.
    - rewrite <- Zle_Qle. lia.
    - discriminate. }
  destruct (Qlt_bool (inject_Z (Z.max 0 c) / 50) 1) eqn:E1;
    destruct (Qlt_bool (inject_Z (Z.max 0 c') / 50) 1) eqn:E2.
  - exact Hq.
  - apply Qlt_bool_iff in E1. apply Qlt_le_weak. exact E1.
  - apply Qlt_bool_false in E1. apply Qlt_bool_iff in E2.
    exfalso. apply (Qlt_not_le _ _ E2).
    apply Qle_trans with (inject_Z (Z.max 0 c) / 50)%Q; assumption.
  - apply Qle_refl.
Qed.

Lemma sub_score_monotone (a b : option (list Q)) :
  scores_le a b ->
  exists s t,
    (if nonempty a then m <- py_max (items a) ;; Ok [m] else Ok []) = Ok s
    /\ (if nonempty b then m <- py_max (items b) ;; Ok [m] else Ok []) = Ok t
    /\ Forall2 Qle s t.
Proof.
  destruct a as [xs | ], b as [ys | ]; simpl; try contradiction.
  - intros H. destruct H as [ | x y xs ys Hxy Hrest]; simpl.
    + exists [], []. repeat split; constructor.
    + eexists _, _. repeat split.
      constructor; [ | constructor].
      apply max_from_monotone; assumption.
  - intros _. exists [], []. repeat split; constructor.
Qed.

Lemma collect_scores_monotone (a b : ConfidenceInput) :
  input_le a b ->
  exists s t, collect_scores a = Ok s /\ collect_scores b = Ok t
              /\ Forall2 Qle s t.
Proof.
  intros (H1 & H2 & H3). unfold collect_scores.
  destruct (sub_score_monotone _ _ H1) as (s1 & t1 & E1 & F1 & L1).
  destruct (sub_score_monotone _ _ H2) as (s2 & t2 & E2 & F2 & L2).
  rewrite E1, F1, E2, F2. simpl.
  eexists _, _. repeat split.
  apply Forall2_app; [exact L1 | ].
  apply Forall2_app; [exact L2 | ].
  destruct (sql_row_count a) as [c | ], (sql_row_count b) as [c' | ];
    simpl in H3; try contradiction; constructor.
  - apply sql_score_monotone. exact H3.
  - constructor.
Qed.

Lemma collect_scores_returns (inputs : ConfidenceInput) :
  exists scores, collect_scores inputs = Ok scores.
Proof.
  unfold collect_scores.
  destruct (retriever_scores inputs) as [[ | x xs] | ];
    destruct (reranker_scores inputs) as [[ | y ys] | ];
    simpl; eexists; reflexivity.
Qed.

Lemma final_score_returns (scores : list Q) :
  exists s, final_score_of scores = Ok s.
Proof. destruct scores; simpl; eexists; reflexivity. Qed.

(** The value bound to [final_score] is 0.0 when no sub-score is
    present, and otherwise one of the sub-scores that is at least as
    large as each of them. *)
Lemma final_score_is_maximum (scores : list Q) (s : Q) :
  final_score_of scores = Ok s ->
  match scores with
  | [] => s = 0%Q
  | _ => In s scores /\ Forall (fun x => (x <= s)%Q) scores
  end.
Proof.
  destruct scores as [ | x rest]; simpl; intros H; inversion H; subst.
  - reflexivity.
  - split.
    + apply max_from_member.
    + destruct (max_from_upper rest x) as [H1 H2]. constructor; assumption.
Qed.

(** The value bound to [final_score] does not decrease when a score or
    the row count of the input increases. *)
Lemma final_score_monotone (a b : ConfidenceInput) :
  input_le a b ->
  exists sa sb fa fb,
    collect_scores a = Ok sa /\ final_score_of sa = Ok fa
    /\ collect_scores b = Ok sb /\ final_score_of sb = Ok fb
    /\ (fa <= fb)%Q.
Proof.
  intros H. destruct (collect_scores_monotone a b H) as (s & t & Es & Et & L).
  exists s, t. rewrite Es, Et.
  destruct L as [ | x y xs ys Hxy Hrest]; simpl.
  - exists 0%Q, 0%Q. repeat split. apply Qle_refl.
  - eexists _, _. repeat split. apply max_from_monotone; assumption.
Qed.

(** ** What [evaluate] answers *)

(** The closing [logger.debug] call passes four positional arguments
    after the message, which [SimpleLogger.debug] does not accept: every
    call of [evaluate] ends in that [TypeError]. *)
Lemma evaluate_always_raises (self : t) (inputs : ConfidenceInput) :
  evaluate self inputs = Raise TypeError.
Proof.
  unfold evaluate.
  destruct (collect_scores_returns inputs) as [scores ->]. simpl.
  destruct (final_score_returns scores) as [s ->]. reflexivity.
Qed.

(** C4.  The two documented examples, at threshold 0.7: the sub-scores
    and the fused value are computed as described (0.9 from the
    retrieval score 0.9; 0.0 from a row count of 0), but [evaluate]
    raises [TypeError] instead of returning them. *)
Theorem evaluate_documented_examples :
  let checker := {| threshold := 7 # 10 |} in
  let only_retrieval :=
    {| retriever_scores := Some [9 # 10]; reranker_scores := None;
       sql_row_count := None |} in
  let only_rows :=
    {| retriever_scores := None; reranker_scores := None;
       sql_row_count := Some 0%Z |} in
  (scores <- collect_scores only_retrieval ;; final_score_of scores) = Ok (9 # 10)
  /\ evaluate checker only_retrieval = Raise TypeError
  /\ (scores <- collect_scores only_rows ;; final_score_of scores) = Ok (0 # 50)
  /\ evaluate checker only_rows = Raise TypeError.
Proof. vm_compute. repeat split; reflexivity. Qed.

(** C8.  No call of [evaluate] returns a fused score, so there is no
    pair of returned scores to compare: for every checker and every two
    inputs, the second one above the first or not, both calls raise
    [TypeError]. *)
Theorem evaluate_returns_no_score (self : t) (a b : ConfidenceInput) :
  ~ returns (evaluate self a) /\ ~ returns (evaluate self b)
  /\ evaluate self a = Raise TypeError /\ evaluate self b = Raise TypeError.
Proof.
  rewrite !evaluate_always_raises. unfold returns.
  repeat split; try intros [r H]; try discriminate H.
Qed.
End ConfidenceFacts.

(* ================================================================== *)
(** * Properties of the business validator *)
(* ================================================================== *)

Lemma bind_ok_inv {A B : Type} (c : res A) (k : A -> res B) (b : B) :
  bind c k = Ok b -> exists a, c = Ok a /\ k a = Ok b.
Proof.
  destruct c as [a | e]; simpl; intros H; [exists a; auto | discriminate H].
Qed.

Section BusinessFacts.
Context {RT : PyRuntime}.
Import BusinessValidator.

(** A result that is returned never carries a warning: as soon as one
    warning is collected, the closing [logger.info] call passes the
    joined warnings as a positional argument and raises [TypeError]. *)
Lemma validate_ir_returns_only_clean (self : t) (ir : dict)
    (r : BusinessValidationResult) :
  validate_ir self ir = Ok r -> ok r = true /\ warnings r = [].
Proof.
  intros H. unfold validate_ir in H.
  apply bind_ok_inv in H as (amount_range & _ & H).
  apply bind_ok_inv in H as (w_amount & _ & H).
  apply bind_ok_inv in H as (date_range & _ & H).
  cbv zeta in H.
  match type of H with
  | context [(length ?w =? 0)%nat] => destruct w as [ | w0 ws]
  end; simpl in H; inversion H; subst; simpl; auto.
Qed.

(** C9.  Two IR dictionaries on which [validate_ir] raises instead of
    returning warnings: an [amount_range] whose [min] is a string
    (comparing it with the configured minimum is a [TypeError]), and a
    [date_range] whose start is after its end (the warning is collected,
    then the log call raises). *)
Theorem validate_ir_raises (self : t) :
  validate_ir self
    [("structured_conditions",
      PDict [("amount_range", PDict [("min", PStr "abc")])])]
  = Raise TypeError
  /\ validate_ir self
       [("structured_conditions",
         PDict [("date_range",
                 PDict [("publish_start", PStr "2024-12-31");
                        ("publish_end", PStr "2024-01-01")])])]
     = Raise TypeError.
Proof. split; reflexivity. Qed.
End BusinessFacts.

(* ================================================================== *)
(** * Properties of the IR synthesizer *)
(* ================================================================== *)

Section GeneratorFacts.
Context {RT : PyRuntime}.
Import LlmIRGenerator.

Lemma route_returns (intent_map : list (string * dict))
    (clf : option LlmClassifier) (query : string) :
  exists r calls, QueryRouter.route intent_map clf query = Ok (r, calls).
Proof.
  unfold QueryRouter.route.
  destruct (QueryRouter._rule_based_route query) as [[i e] r].
  destruct clf as [c | ]; [ | eexists _, _; reflexivity].
  destruct (String.eqb r Route.OTHER); [ | eexists _, _; reflexivity].
  destruct (QueryRouter._safe_llm_classify c query) as [[l | ] calls];
    [destruct (negb (String.eqb l "")) | ]; eexists _, _; reflexivity.
Qed.

Lemma rule_based_ir_returns (query : string) (rr : RouteResult) :
  exists ir, _build_rule_based_ir query rr = Ok ir.
Proof. unfold _build_rule_based_ir. simpl. eexists; reflexivity. Qed.

(** The fallback inside [_build_llm_ir]: when the call raises, when the
    reply is not JSON text, or when it decodes to something that is not
    an object, the rule-based IR is returned. *)
Lemma build_llm_ir_falls_back (client : LlmClient)
    (query : string) (rr : RouteResult) :
  (forall d, (raw <- client (llm_prompt query rr) ;; loads raw) <> Ok (PDict d)) ->
  _build_llm_ir client query rr = _build_rule_based_ir query rr.
Proof.
  intros H. unfold _build_llm_ir.
  destruct (client (llm_prompt query rr)) as [raw | e]; simpl in *; [ | reflexivity].
  destruct (loads raw) as [v | e]; simpl; [ | reflexivity].
  destruct v; try reflexivity.
  exfalso. apply (H d). reflexivity.
Qed.

(** A reply that decodes to an object is returned as it is. *)
Lemma build_llm_ir_object (client : LlmClient)
    (query : string) (rr : RouteResult) (raw : string) (d : dict) :
  client (llm_prompt query rr) = Ok (PStr raw) ->
  json_loads raw = Ok (PDict d) ->
  _build_llm_ir client query rr = Ok d.
Proof.
  intros Hc Hj. unfold _build_llm_ir. rewrite Hc. simpl. rewrite Hj. reflexivity.
Qed.

(** C2.  When the generator replies with JSON text that decodes to an
    object which is not a valid argument list of [UnifiedQueryIR] (a
    required field is missing or a key is not a field), [generate] does
    not fall back to the rule path: it raises. *)
Theorem generate_raises_on_misshapen_reply (self : t) (client : LlmClient)
    (query raw : string) (d : dict) :
  _llm_client self = Some client ->
  (forall prompt, client prompt = Ok (PStr raw)) ->
  json_loads raw = Ok (PDict d) ->
  raises (UnifiedQueryIR.init d) ->
  raises (generate self query).
Proof.
  intros Hself Hclient Hjson Hinit. unfold generate.
  destruct (route_returns (_router_intent_map self) None query) as (rr & calls & ->).
  simpl. rewrite Hself.
  rewrite (build_llm_ir_object client query rr raw d (Hclient _) Hjson).
  simpl.
  destruct (IRSchemaValidator.validate (_schema_validator self) d) as [sr | e];
    simpl; [ | eexists; reflexivity].
  destruct (negb (IRSchemaValidator.ok sr)); simpl;
    (destruct (BusinessValidator.validate_ir (_business_validator self) d) as [br | e];
     simpl; [ | eexists; reflexivity]);
    destruct (negb (BusinessValidator.ok br)); simpl; exact Hinit.
Qed.
End GeneratorFacts.

Lemma generate_raises_on_misshapen_reply_witness :
  raises (LlmIRGenerator.generate (RT := ascii_runtime)
            empty_object_generator "你好").
Proof.
  apply (generate_raises_on_misshapen_reply (RT := ascii_runtime)
           empty_object_generator (fun _ => Ok (PStr "{}")) "你好" "{}" []).
  - reflexivity.
  - intros prompt. reflexivity.
  - reflexivity.
  - exists TypeError. reflexivity.
Defined.

(* ================================================================== *)
(** * Properties of the query synthesizer *)
(* ================================================================== *)

Section SynthesizerFacts.
Context {RT : PyRuntime}.
Variable self : IR2SQL.t.

(** ** The loop over the filters *)

Lemma filter_step_dict (ts : TableSchema) (parts : list string)
    (ps : list pyval) (d : dict) :
  IR2SQL.filter_step self ts (parts, ps) (PDict d)
  = Ok (if emitted self ts (PDict d)
        then (parts ++ [clause (PDict d)], ps ++ clause_params (PDict d))%list
        else (parts, ps)).
Proof.
  unfold IR2SQL.filter_step, emitted, clause, clause_params, is_pair. simpl.
  destruct (truthy (dict_get d "field")); simpl; [ | reflexivity].
  destruct (truthy (dict_get d "op")); simpl; [ | reflexivity].
  destruct (py_in_strs (dict_get d "op") (IR2SQL.allowed_ops self)); simpl;
    [ | reflexivity].
  destruct (has_column ts (dict_get d "field")); simpl; [ | reflexivity].
  destruct (py_eq_str (dict_get d "op") "between"); simpl.
  - destruct (is_list_or_tuple (dict_get d "value")); simpl; [ | reflexivity].
    destruct (length (seq_items (dict_get d "value")) =? 2)%nat; reflexivity.
  - destruct (py_eq_str (dict_get d "op") "like"); reflexivity.
Qed.

Lemma filter_step_not_dict (ts : TableSchema) (acc : list string * list pyval)
    (cond : pyval) :
  is_dict cond = false ->
  IR2SQL.filter_step self ts acc cond = Raise AttributeError.
Proof.
  intros H. destruct acc as [parts ps].
  destruct cond; try discriminate H; reflexivity.
Qed.

Lemma filter_loop_cons (ts : TableSchema) (cond : pyval) (rest : list pyval)
    (acc : list string * list pyval) :
  IR2SQL.filter_loop self ts (cond :: rest) acc
  = (acc' <- IR2SQL.filter_step self ts acc cond ;;
     IR2SQL.filter_loop self ts rest acc').
Proof. reflexivity. Qed.

Lemma filter_loop_dicts (ts : TableSchema) (conds : list pyval) :
  forallb is_dict conds = true ->
  forall parts ps,
    IR2SQL.filter_loop self ts conds (parts, ps)
    = Ok ((parts ++ map clause (filter (emitted self ts) conds))%list,
          (ps ++ flat_map clause_params (filter (emitted self ts) conds))%list).
Proof.
  induction conds as [ | cond rest IH]; intros Hd parts ps.
  - simpl. rewrite !app_nil_r. reflexivity.
  - simpl in Hd. apply andb_true_iff in Hd as [Hc Hrest].
    destruct cond; try discriminate Hc.
    rewrite filter_loop_cons, filter_step_dict.
    destruct (emitted self ts (PDict d)) eqn:E.
    + cbn [bind]. rewrite (IH Hrest). cbn [filter]. rewrite E.
      cbn [map flat_map]. rewrite <- !app_assoc. reflexivity.
    + cbn [bind]. rewrite (IH Hrest). cbn [filter]. rewrite E. reflexivity.
Qed.

Lemma filter_loop_ok_dicts (ts : TableSchema) (conds : list pyval) :
  forall acc r,
    IR2SQL.filter_loop self ts conds acc = Ok r ->
    forallb is_dict conds = true.
Proof.
  induction conds as [ | cond rest IH]; intros acc r H.
  - reflexivity.
  - rewrite filter_loop_cons in H. simpl forallb.
    destruct (is_dict cond) eqn:E.
    + apply bind_ok_inv in H as (acc' & _ & H). simpl. eapply IH. exact H.
    + rewrite (filter_step_not_dict ts acc cond E) in H. discriminate H.
Qed.

(** ** The table *)

Lemma ensure_table_ok (table_name : pyval) (ts : TableSchema) :
  DBSchema.ensure_table (IR2SQL._schema self) table_name = Ok ts ->
  exists t, table_name = PStr t
            /\ DBSchema.lookup_table t (DBSchema._tables (IR2SQL._schema self))
               = Some ts.
Proof.
  unfold DBSchema.ensure_table, DBSchema.get. intros H.
  destruct (hashable table_name); simpl in H; [ | discriminate H].
  destruct table_name; simpl in H; try discriminate H.
  exists s. split; [reflexivity | ].
  destruct (DBSchema.lookup_table s _); [ | discriminate H].
  inversion H. reflexivity.
Qed.

(** ** [build] as a whole *)

Lemma build_ok_inv (ir : dict) (r : SqlBuildResult) :
  IR2SQL.build self ir = Ok r ->
  exists t ts cols_sql conds,
    dict_get ir "table" = PStr t
    /\ t <> ""
    /\ DBSchema.lookup_table t (DBSchema._tables (IR2SQL._schema self)) = Some ts
    /\ IR2SQL.select_sql ts ir = Ok cols_sql
    /\ filters_of ir = Ok conds
    /\ forallb is_dict conds = true
    /\ r = built self ir t cols_sql ts conds.
Proof.
  unfold IR2SQL.build. intros H.
  destruct (truthy (dict_get ir "table")) eqn:Ht; simpl in H; [ | discriminate H].
  apply bind_ok_inv in H as (ts & Hts & H).
  apply bind_ok_inv in H as (cols_sql & Hcols & H).
  apply bind_ok_inv in H as (conds & Hconds & H).
  apply bind_ok_inv in H as ([parts ps] & Hloop & H).
  simpl in H. inversion H; subst r; clear H.
  destruct (ensure_table_ok _ _ Hts) as (t & Et & Hlook).
  pose proof (filter_loop_ok_dicts _ _ _ _ Hloop) as Hd.
  rewrite (filter_loop_dicts ts conds Hd) in Hloop. simpl in Hloop.
  inversion Hloop; subst parts ps.
  exists t, ts, cols_sql, conds. rewrite Et in *. simpl in Ht.
  repeat split; auto.
  intros ->. discriminate Ht.
Qed.

Lemma build_ok_intro (ir : dict) (t cols_sql : string) (ts : TableSchema)
    (conds : list pyval) :
  dict_get ir "table" = PStr t ->
  t <> "" ->
  DBSchema.lookup_table t (DBSchema._tables (IR2SQL._schema self)) = Some ts ->
  IR2SQL.select_sql ts ir = Ok cols_sql ->
  filters_of ir = Ok conds ->
  forallb is_dict conds = true ->
  IR2SQL.build self ir = Ok (built self ir t cols_sql ts conds).
Proof.
  intros Et Hne Hlook Hcols Hconds Hd. unfold IR2SQL.build.
  rewrite Et. cbn [truthy negb].
  destruct (String.eqb t "") eqn:E; [apply String.eqb_eq in E; contradiction | ].
  cbn [negb]. unfold DBSchema.ensure_table, DBSchema.get.
  cbn [hashable negb bind]. rewrite Hlook. cbn [bind].
  rewrite Hcols. cbn [bind].
  unfold filters_of in Hconds. rewrite Hconds. cbn [bind].
  rewrite (filter_loop_dicts ts conds Hd). reflexivity.
Qed.
End SynthesizerFacts.

Section SynthesizerFilterValues.
Context {RT : PyRuntime}.
Variable self : IR2SQL.t.

Lemma select_sql_ext (ts : TableSchema) (ir1 ir2 : dict) :
  dict_get ir1 "select" = dict_get ir2 "select" ->
  IR2SQL.select_sql ts ir1 = IR2SQL.select_sql ts ir2.
Proof. intros H. unfold IR2SQL.select_sql. rewrite H. reflexivity. Qed.

Lemma row_limit_ext (ir1 ir2 : dict) :
  dict_get ir1 "limit" = dict_get ir2 "limit" ->
  IR2SQL.row_limit self ir1 = IR2SQL.row_limit self ir2.
Proof. intros H. unfold IR2SQL.row_limit. rewrite H. reflexivity. Qed.

Lemma cond_similar_refl (c : pyval) : cond_similar c c.
Proof. destruct c; simpl; auto. Qed.

Lemma Forall2_cond_similar_refl (l : list pyval) : Forall2 cond_similar l l.
Proof. induction l; constructor; auto using cond_similar_refl. Qed.

Lemma cond_similar_dict (d1 : dict) (c2 : pyval) :
  cond_similar (PDict d1) c2 ->
  exists d2, c2 = PDict d2
             /\ dict_get d1 "field" = dict_get d2 "field"
             /\ dict_get d1 "op" = dict_get d2 "op"
             /\ (py_eq_str (dict_get d1 "op") "between" = true ->
                 is_pair (dict_get d1 "value") = is_pair (dict_get d2 "value")).
Proof.
  destruct c2; simpl; intros H; try discriminate H.
  exists d. tauto.
Qed.

Lemma cond_similar_emitted (ts : TableSchema) (d1 d2 : dict) :
  cond_similar (PDict d1) (PDict d2) ->
  emitted self ts (PDict d1) = emitted self ts (PDict d2)
  /\ clause (PDict d1) = clause (PDict d2).
Proof.
  simpl. intros (Hf & Ho & Hp). rewrite <- Hf, <- Ho. split; [ | reflexivity].
  destruct (py_eq_str (dict_get d1 "op") "between").
  - rewrite (Hp eq_refl). reflexivity.
  - reflexivity.
Qed.

Lemma similar_filters_same_clauses (ts : TableSchema) (l1 l2 : list pyval) :
  Forall2 cond_similar l1 l2 ->
  forallb is_dict l1 = true ->
  forallb is_dict l2 = true
  /\ map clause (filter (emitted self ts) l1)
     = map clause (filter (emitted self ts) l2).
Proof.
  induction 1 as [ | c1 c2 l1 l2 Hc Hrest IH]; intros Hd.
  - split; reflexivity.
  - simpl in Hd. apply andb_true_iff in Hd as [Hc1 Hd].
    destruct c1; try discriminate Hc1.
    destruct (cond_similar_dict _ _ Hc) as (d2 & -> & _).
    destruct (IH Hd) as [IH1 IH2].
    destruct (cond_similar_emitted ts _ _ Hc) as [He Hcl].
    split; [simpl; exact IH1 | ].
    cbn [filter]. rewrite <- He.
    destruct (emitted self ts (PDict d)); cbn [map]; congruence.
Qed.

Lemma similar_filters_iterate (ir1 ir2 : dict) (conds1 : list pyval) :
  filters_similar (dict_get ir1 "filters") (dict_get ir2 "filters") ->
  filters_of ir1 = Ok conds1 ->
  exists conds2, filters_of ir2 = Ok conds2 /\ Forall2 cond_similar conds1 conds2.
Proof.
  unfold filters_of. intros Hs H1.
  destruct (dict_get ir1 "filters") as [ | | | | | l1 | l1 | ] eqn:E1;
    destruct (dict_get ir2 "filters") as [ | | | | | l2 | l2 | ] eqn:E2;
    simpl in Hs; try discriminate Hs;
    try (injection Hs as <-);
    try (rewrite H1; eexists; split;
         [reflexivity | apply Forall2_cond_similar_refl]).
  - destruct Hs as [ | c1 c2 l1 l2 Hc Hrest]; simpl in *.
    + inversion H1. exists []. split; [reflexivity | constructor].
    + inversion H1. eexists. split; [reflexivity | constructor; assumption].
  - destruct Hs as [ | c1 c2 l1 l2 Hc Hrest]; simpl in *.
    + inversion H1. exists []. split; [reflexivity | constructor].
    + inversion H1. eexists. split; [reflexivity | constructor; assumption].
Qed.

(** C1.  When [build] succeeds on an IR, it succeeds with the same query
    text on every IR that differs from it only in its filter values
    (a [between] value staying a pair), so no filter value is part of the
    text; the values are handed over in the parameter list, filter by
    filter in the order of emission. *)
Theorem build_text_ignores_filter_values (ir1 ir2 : dict) (r1 : SqlBuildResult) :
  ir_similar ir1 ir2 ->
  IR2SQL.build self ir1 = Ok r1 ->
  (exists r2, IR2SQL.build self ir2 = Ok r2 /\ sql r2 = sql r1)
  /\ (exists ts conds,
        DBSchema.ensure_table (IR2SQL._schema self) (dict_get ir1 "table") = Ok ts
        /\ filters_of ir1 = Ok conds
        /\ params r1 = flat_map clause_params (filter (emitted self ts) conds)).
Proof.
  intros (Ht & Hs & Hl & Hf) H.
  destruct (build_ok_inv self ir1 r1 H)
    as (t & ts & cols & conds1 & Et & Hne & Hlook & Hcols & Hconds & Hd & ->).
  destruct (similar_filters_iterate ir1 ir2 conds1 Hf Hconds)
    as (conds2 & Hconds2 & Hsim).
  destruct (similar_filters_same_clauses ts conds1 conds2 Hsim Hd) as [Hd2 Hcl].
  split.
  - exists (built self ir2 t cols ts conds2). split.
    + apply build_ok_intro; auto.
      * rewrite <- Ht. exact Et.
      * rewrite <- (select_sql_ext ts ir1 ir2 Hs). exact Hcols.
    + unfold built. simpl. rewrite Hcl, (row_limit_ext ir1 ir2 Hl). reflexivity.
  - exists ts, conds1. repeat split; auto.
    rewrite Et. unfold DBSchema.ensure_table, DBSchema.get. simpl.
    rewrite Hlook. reflexivity.
Qed.
End SynthesizerFilterValues.

Lemma build_text_ignores_filter_values_witness :
  exists r2,
    IR2SQL.build (RT := ascii_runtime) sample_synthesizer hostile_ir = Ok r2
    /\ sql r2 = "SELECT * FROM tender_project WHERE `amount` >= %s LIMIT 100".
Proof.
  destruct (build_text_ignores_filter_values (RT := ascii_runtime)
              sample_synthesizer amount_ir hostile_ir
              {| sql := "SELECT * FROM tender_project WHERE `amount` >= %s LIMIT 100";
                 params := [PInt 1000000] |}) as [H _].
  - repeat split; try reflexivity.
    simpl. constructor; [ | constructor].
    simpl. repeat split; try reflexivity.
  - vm_compute. reflexivity.
  - exact H.
Defined.

Section SynthesizerSkips.
Context {RT : PyRuntime}.
Variable self : IR2SQL.t.

(** C6.  When the table of the IR resolves, its select list passes the
    column check and its filters are mappings, [build] succeeds; the
    WHERE clause and the parameters are made, in order, of exactly the
    filters that pass the tests of the loop.  A filter whose operator is
    not allowed or whose field is not a column is none of them, and no
    such filter makes [build] fail. *)
Theorem build_skips_invalid_filters (ir : dict) (ts : TableSchema)
    (cols_sql : string) (conds : list pyval) :
  truthy (dict_get ir "table") = true ->
  DBSchema.ensure_table (IR2SQL._schema self) (dict_get ir "table") = Ok ts ->
  IR2SQL.select_sql ts ir = Ok cols_sql ->
  filters_of ir = Ok conds ->
  forallb is_dict conds = true ->
  let kept := filter (emitted self ts) conds in
  IR2SQL.build self ir
  = Ok {| sql := "SELECT " ++ cols_sql ++ " FROM " ++ py_str (dict_get ir "table")
                 ++ IR2SQL.where_clause (map clause kept)
                 ++ " LIMIT " ++ py_str (IR2SQL.row_limit self ir);
          params := flat_map clause_params kept |}
  /\ (forall d, In (PDict d) conds ->
                py_in_strs (dict_get d "op") (IR2SQL.allowed_ops self) = false
                \/ has_column ts (dict_get d "field") = false ->
                ~ In (PDict d) kept)
  /\ (forall cond, In cond conds -> emitted self ts cond = true -> In cond kept).
Proof.
  intros Htruthy Hts Hcols Hconds Hd kept.
  destruct (ensure_table_ok self _ _ Hts) as (t & Et & Hlook).
  split; [ | split].
  - rewrite Et in *. simpl in Htruthy.
    rewrite (build_ok_intro self ir t cols_sql ts conds); auto.
    intros ->. discriminate Htruthy.
  - intros d Hin Hbad Hkept. apply filter_In in Hkept as [_ He].
    simpl in He.
    destruct Hbad as [Hop | Hcol]; [rewrite Hop in He | rewrite Hcol in He];
      rewrite ?andb_false_r in He; simpl in He; discriminate He.
  - intros cond Hin He. apply filter_In. auto.
Qed.
End SynthesizerSkips.

Lemma build_skips_invalid_filters_witness :
  IR2SQL.build (RT := ascii_runtime) sample_synthesizer mixed_ir
  = Ok {| sql := "SELECT `id`, `title` FROM tender_project WHERE `amount` BETWEEN %s AND %s AND `title` LIKE %s LIMIT 100";
          params := [PInt 10; PInt 20; PStr "%bridge%"] |}.
Proof.
  exact (proj1 (build_skips_invalid_filters (RT := ascii_runtime)
                  sample_synthesizer mixed_ir
                  {| name := "tender_project";
                     columns := ["id"; "title"; "amount"; "publish_date"];
                     primary_key := Some "id" |}
                  "`id`, `title`"
                  [filter_cond "amount" "regexp" (PStr ".*");
                   filter_cond "amount" "between" (PList [PInt 10; PInt 20]);
                   filter_cond "budget" "=" (PInt 7);
                   filter_cond "title" "like" (PStr "%bridge%")]
                  eq_refl eq_refl eq_refl eq_refl eq_refl)).
Defined.

Lemma py_in_strs_str (s : string) (l : list string) :
  In s l -> py_in_strs (PStr s) l = true.
Proof.
  intros H. unfold py_in_strs. apply existsb_exists.
  exists s. split; [exact H | simpl; apply String.eqb_refl].
Qed.

Section SynthesizerExample.
Context {RT : PyRuntime}.
Variable self : IR2SQL.t.

(** C5.  With a schema in which [tender_project] has a column [amount],
    with [>=] among the allowed operators and a ceiling of 100, the IR of
    the documented example (filter keyed by [field], [op], [value], no
    limit) is synthesized to the text
    [SELECT * FROM tender_project WHERE `amount` >= %s LIMIT 100]
    with the parameter list [[1000000]]: the placeholder is [%s]. *)
Theorem build_amount_example (ts : TableSchema) :
  DBSchema.lookup_table "tender_project" (DBSchema._tables (IR2SQL._schema self))
  = Some ts ->
  In "amount" (columns ts) ->
  In ">=" (IR2SQL.allowed_ops self) ->
  IR2SQL.max_limit self = 100%Z ->
  IR2SQL.build self amount_ir
  = Ok {| sql := "SELECT * FROM tender_project WHERE `amount` >= %s LIMIT 100";
          params := [PInt 1000000] |}.
Proof.
  intros Hlook Hcol Hop Hmax.
  rewrite (build_ok_intro self amount_ir "tender_project" "*" ts
             [filter_cond "amount" ">=" (PInt 1000000)]);
    try reflexivity; try assumption; try discriminate.
  assert (He : emitted self ts (filter_cond "amount" ">=" (PInt 1000000)) = true).
  { unfold emitted, filter_cond, has_column.
    cbv [dict_get dict_get_default lookup String.eqb Ascii.eqb Bool.eqb].
    rewrite (py_in_strs_str ">=" _ Hop), (py_in_strs_str "amount" _ Hcol).
    reflexivity. }
  unfold built. cbn [filter]. rewrite He.
  unfold IR2SQL.row_limit. rewrite Hmax. reflexivity.
Qed.
End SynthesizerExample.

Lemma build_amount_example_witness :
  IR2SQL.build (RT := ascii_runtime) sample_synthesizer amount_ir
  = Ok {| sql := "SELECT * FROM tender_project WHERE `amount` >= %s LIMIT 100";
          params := [PInt 1000000] |}.
Proof.
  apply (build_amount_example (RT := ascii_runtime) sample_synthesizer
           {| name := "tender_project";
              columns := ["id"; "title"; "amount"; "publish_date"];
              primary_key := Some "id" |}).
  - reflexivity.
  - simpl. tauto.
  - simpl. tauto.
  - reflexivity.
Defined.

(** C5, as documented.  On the sample configuration (ceiling 100) the
    text with the placeholder [?] is not what [build] answers, whether
    the filter is keyed by [op] or by [operator]; in the second case the
    filter is skipped altogether. *)
Lemma build_amount_example_not_question_mark :
  IR2SQL.build (RT := ascii_runtime) sample_synthesizer amount_ir
  <> Ok {| sql := "SELECT * FROM tender_project WHERE `amount` >= ? LIMIT 100";
           params := [PInt 1000000] |}
  /\ IR2SQL.build (RT := ascii_runtime) sample_synthesizer amount_ir_operator_key
     = Ok {| sql := "SELECT * FROM tender_project LIMIT 100"; params := [] |}.
Proof.
  split.
  - vm_compute. intros H. discriminate H.
  - vm_compute. reflexivity.
Qed.

(* ================================================================== *)
(** * Counting occurrences in a concatenation *)
(* ================================================================== *)

Lemma append_assoc (a b c : string) : (a ++ b) ++ c = a ++ (b ++ c).
Proof. induction a as [ | x a IH]; simpl; [reflexivity | rewrite IH; reflexivity]. Qed.

Lemma prefix_nil (s : string) : prefix "" s = true.
Proof. destruct s; reflexivity. Qed.

Lemma prefix_cons_nil (h : ascii) (t : string) : prefix (String h t) "" = false.
Proof. reflexivity. Qed.

Lemma prefix_app_sep (p : string) (c : ascii) :
  char_in c p = false ->
  forall u v, prefix p (u ++ String c v) = prefix p u.
Proof.
  induction p as [ | h t IH]; intros Hc u v.
  - rewrite !prefix_nil. reflexivity.
  - simpl in Hc. apply orb_false_iff in Hc as [Hh Ht].
    destruct u as [ | x u']; simpl.
    + destruct (ascii_dec h c) as [E | E]; [ | reflexivity].
      subst c. rewrite Ascii.eqb_refl in Hh. discriminate Hh.
    + destruct (ascii_dec h x); [apply IH; exact Ht | reflexivity].
Qed.

Lemma occ_app_sep (p : string) (c : ascii) (a b : string) :
  p <> "" ->
  char_in c p = false ->
  occ p (a ++ String c b) = (occ p a + occ p b)%nat.
Proof.
  intros Hp Hc. induction a as [ | x a IH].
  - simpl append. cbn [occ].
    change (String c b) with ("" ++ String c b) at 1.
    rewrite (prefix_app_sep p c Hc "" b).
    destruct p; [contradiction | reflexivity].
  - change ((String x a) ++ String c b) with (String x (a ++ String c b)).
    cbn [occ]. rewrite IH.
    change (String x (a ++ String c b)) with ((String x a) ++ String c b).
    rewrite (prefix_app_sep p c Hc (String x a) b).
    rewrite Nat.add_assoc. reflexivity.
Qed.

Lemma occ_cons_sep (p : string) (c : ascii) (b : string) :
  p <> "" ->
  char_in c p = false ->
  occ p (String c b) = occ p b.
Proof.
  intros Hp Hc. change (String c b) with ("" ++ String c b).
  rewrite occ_app_sep by assumption. reflexivity.
Qed.

(** A pattern whose first character does not occur in a text does not
    occur in it. *)
Lemma occ_without_first_char (h : ascii) (t s : string) :
  char_in h s = false -> occ (String h t) s = 0%nat.
Proof.
  induction s as [ | x r IH]; intros H; [reflexivity | ].
  simpl in H. apply orb_false_iff in H as [Hx Hr].
  cbn [occ]. rewrite (IH Hr). simpl.
  destruct (ascii_dec h x) as [E | E]; [ | reflexivity].
  subst x. rewrite Ascii.eqb_refl in Hx. discriminate Hx.
Qed.

Lemma char_in_uint (h : ascii) (d : Decimal.uint) :
  char_in h "0123456789" = false ->
  char_in h (NilEmpty.string_of_uint d) = false.
Proof.
  intros H. simpl in H.
  repeat (apply orb_false_iff in H as [? H]).
  induction d; simpl; rewrite ?IHd; try reflexivity;
    apply orb_false_iff; split; assumption.
Qed.

Lemma char_in_Z_to_string (h : ascii) (z : Z) :
  char_in h "-0123456789" = false ->
  char_in h (Z_to_string z) = false.
Proof.
  intros H. simpl in H. apply orb_false_iff in H as [Hminus Hd].
  assert (Hu : forall d, char_in h (NilZero.string_of_uint d) = false).
  { intros d. unfold NilZero.string_of_uint.
    destruct d; try (apply char_in_uint; exact Hd).
    simpl in *. repeat (apply orb_false_iff in Hd as [? Hd]).
    apply orb_false_iff; split; assumption. }
  unfold Z_to_string, NilZero.string_of_int.
  destruct (Z.to_int z) as [d | d].
  - apply Hu.
  - simpl. rewrite Hminus. apply Hu.
Qed.

Lemma py_eq_PStr (v : pyval) (s : string) : py_eq v (PStr s) = true -> v = PStr s.
Proof.
  destruct v as [ | [ | ] | z | q | t | l | l | d]; simpl; intros H;
    try discriminate H.
  apply String.eqb_eq in H. congruence.
Qed.

Lemma py_in_strs_inv (v : pyval) (l : list string) :
  py_in_strs v l = true -> exists s, v = PStr s /\ In s l.
Proof.
  unfold py_in_strs. intros H. apply existsb_exists in H as (s & Hin & He).
  exists s. split; [apply py_eq_PStr; exact He | exact Hin].
Qed.

Section CountingInQuery.
Context {RT : PyRuntime}.
Variable self : IR2SQL.t.
Variable p : string.
Hypothesis Hcountable : countable p = true.

Lemma countable_facts :
  p <> ""
  /\ char_in " " p = false /\ char_in "`" p = false /\ char_in "," p = false
  /\ (exists h t, p = String h t /\ char_in h "-0123456789True" = false)
  /\ occ p "SELECT" = 0%nat /\ occ p "FROM" = 0%nat
  /\ occ p "AND" = 0%nat /\ occ p "*" = 0%nat.
Proof.
  unfold countable, sep_free in Hcountable.
  repeat (apply andb_true_iff in Hcountable as [Hcountable ?]).
  repeat match goal with
         | H : negb _ = true |- _ => apply negb_true_iff in H
         | H : (_ =? _)%nat = true |- _ => apply Nat.eqb_eq in H
         end.
  destruct p as [ | h t] eqn:E; [discriminate | ].
  repeat split; auto; try discriminate.
  exists h, t. split; [reflexivity | ].
  match goal with H : negb _ = true |- _ => apply negb_true_iff in H; exact H end.
Qed.

Lemma occ_space (a b : string) :
  occ p (a ++ String " " b) = (occ p a + occ p b)%nat.
Proof. apply occ_app_sep; apply countable_facts. Qed.

Lemma occ_backquote (a b : string) :
  occ p (a ++ String "`" b) = (occ p a + occ p b)%nat.
Proof. apply occ_app_sep; apply countable_facts. Qed.

Lemma occ_comma (a b : string) :
  occ p (a ++ String "," b) = (occ p a + occ p b)%nat.
Proof. apply occ_app_sep; apply countable_facts. Qed.

Lemma occ_join_and (parts : list string) :
  occ p (join " AND " parts) = list_sum (map (occ p) parts).
Proof.
  induction parts as [ | x rest IH]; [reflexivity | ].
  destruct rest as [ | y rest].
  - simpl. rewrite Nat.add_0_r. reflexivity.
  - change (join " AND " (x :: y :: rest))
      with (x ++ String " " ("AND" ++ String " " (join " AND " (y :: rest)))).
    rewrite !occ_space, IH.
    destruct countable_facts as (_ & _ & _ & _ & _ & _ & _ & Hand & _).
    rewrite Hand. reflexivity.
Qed.

Lemma occ_join_comma (items : list string) :
  Forall (fun x => occ p x = 0%nat) items ->
  occ p (join ", " items) = 0%nat.
Proof.
  induction 1 as [ | x rest Hx Hrest IH]; [reflexivity | ].
  destruct rest as [ | y rest]; [exact Hx | ].
  change (join ", " (x :: y :: rest))
    with (x ++ String "," ("" ++ String " " (join ", " (y :: rest)))).
  rewrite occ_comma, occ_space, IH, Hx. reflexivity.
Qed.

Lemma occ_quoted (c : string) :
  occ p ("`" ++ c ++ "`") = occ p c.
Proof.
  change ("`" ++ c ++ "`") with ("" ++ String "`" (c ++ String "`" "")).
  rewrite !occ_backquote. simpl. lia.
Qed.

(** The written limit is a positive integer literal, the ceiling, or
    [True]. *)
Lemma row_limit_cases (ir : dict) :
  (exists z, IR2SQL.row_limit self ir = PInt z) \/ IR2SQL.row_limit self ir = PBool true.
Proof.
  unfold IR2SQL.row_limit.
  destruct (dict_get ir "limit") as [ | [ | ] | z | | | | | ]; simpl;
    try (left; eexists; reflexivity).
  - destruct (IR2SQL.max_limit self <? 1)%Z; [left; eexists; reflexivity | right; reflexivity].
  - destruct (z <=? 0)%Z; simpl; [left; eexists; reflexivity | ].
    destruct (IR2SQL.max_limit self <? z)%Z; left; eexists; reflexivity.
Qed.

Lemma occ_row_limit (ir : dict) :
  occ p (py_str (IR2SQL.row_limit self ir)) = 0%nat.
Proof.
  destruct countable_facts as (_ & _ & _ & _ & (h & t & E & Hh) & _).
  rewrite E. apply occ_without_first_char.
  simpl in Hh. repeat (apply orb_false_iff in Hh as [? Hh]).
  destruct (row_limit_cases ir) as [[z ->] | ->]; simpl.
  - apply char_in_Z_to_string. simpl.
    repeat (apply orb_false_iff; split; try assumption).
  - repeat (apply orb_false_iff; split; try assumption).
Qed.

Variable ts : TableSchema.
Hypothesis Hcolumns : forall c, In c (columns ts) -> occ p c = 0%nat.
Hypothesis Hops : forall o, In o (IR2SQL.allowed_ops self) -> occ p o = 0%nat.

Lemma occ_select_sql (ir : dict) (cols_sql : string) :
  IR2SQL.select_sql ts ir = Ok cols_sql -> occ p cols_sql = 0%nat.
Proof.
  unfold IR2SQL.select_sql. intros H.
  destruct (py_eq _ _).
  - inversion H. apply countable_facts.
  - apply bind_ok_inv in H as (cs & _ & H).
    destruct (filter (fun c => negb (has_column ts c)) cs) as [ | bad rest] eqn:E;
      simpl in H; [ | discriminate H].
    inversion H. apply occ_join_comma. apply Forall_map.
    apply Forall_forall. intros c Hin. cbv beta.
    change (occ p ("`" ++ py_str c ++ "`") = 0%nat). rewrite occ_quoted.
    destruct (has_column ts c) eqn:Hc.
    + apply py_in_strs_inv in Hc as (f & -> & Hf). simpl. apply Hcolumns. exact Hf.
    + assert (Hbad : In c (filter (fun c => negb (has_column ts c)) cs)).
      { apply filter_In. rewrite Hc. auto. }
      rewrite E in Hbad. contradiction.
Qed.

(** Occurrences in the condition text of an emitted filter: those of the
    fixed tail of its shape. *)
Lemma occ_clause (cond : pyval) :
  emitted self ts cond = true ->
  occ p (clause cond)
  = match cond with
    | PDict d =>
        if py_eq_str (dict_get d "op") "between" then occ p "BETWEEN %s AND %s"
        else if py_eq_str (dict_get d "op") "like" then occ p "LIKE %s"
        else occ p "%s"
    | _ => 0%nat
    end.
Proof.
  destruct cond as [ | b | z | q | s | l | l | d]; unfold emitted, clause;
    try (intros H; discriminate H).
  intros H.
  repeat (apply andb_true_iff in H as [H ?]).
  match goal with
  | Hc : has_column _ _ = true |- _ => apply py_in_strs_inv in Hc as (f & Ef & Hf)
  end.
  match goal with
  | Hp : py_in_strs _ _ = true |- _ => apply py_in_strs_inv in Hp as (o & Eo & Ho)
  end.
  rewrite Ef, Eo. cbn [py_str].
  destruct (py_eq_str (PStr o) "between").
  - change ("`" ++ f ++ "` BETWEEN %s AND %s")
      with ("" ++ String "`" (f ++ String "`" ("" ++ String " " "BETWEEN %s AND %s"))).
    rewrite !occ_backquote, occ_space, (Hcolumns f Hf). reflexivity.
  - destruct (py_eq_str (PStr o) "like").
    + change ("`" ++ f ++ "` LIKE %s")
        with ("" ++ String "`" (f ++ String "`" ("" ++ String " " "LIKE %s"))).
      rewrite !occ_backquote, occ_space, (Hcolumns f Hf). reflexivity.
    + change ("`" ++ f ++ "` " ++ o ++ " %s")
        with ("" ++ String "`" (f ++ String "`" ("" ++ String " " (o ++ String " " "%s")))).
      rewrite !occ_backquote, !occ_space, (Hcolumns f Hf), (Hops o Ho). reflexivity.
Qed.

Lemma occ_where_clause (parts : list string) :
  occ p (IR2SQL.where_clause parts)
  = match parts with
    | [] => 0%nat
    | _ => (occ p "WHERE" + list_sum (map (occ p) parts))%nat
    end.
Proof.
  destruct parts as [ | x rest]; [reflexivity | ].
  change (occ p ("" ++ String " " ("WHERE" ++ String " " (join " AND " (x :: rest))))
          = (occ p "WHERE" + list_sum (map (occ p) (x :: rest)))%nat).
  do 2 rewrite occ_space. rewrite occ_join_and. reflexivity.
Qed.

(** Occurrences in a whole synthesized query. *)
Lemma occ_built (ir : dict) (t cols_sql : string) (conds : list pyval) :
  occ p t = 0%nat ->
  IR2SQL.select_sql ts ir = Ok cols_sql ->
  occ p (sql (built self ir t cols_sql ts conds))
  = (occ p (IR2SQL.where_clause (map clause (filter (emitted self ts) conds)))
     + occ p "LIMIT")%nat.
Proof.
  intros Ht Hcols. unfold built. cbn [sql].
  set (w := IR2SQL.where_clause _).
  set (lim := py_str _).
  assert (Hlim : occ p lim = 0%nat) by apply occ_row_limit.
  destruct countable_facts as (_ & _ & _ & _ & _ & Hsel & Hfrom & _ & _).
  assert (E : t ++ w ++ " LIMIT " ++ lim
              = (t ++ w) ++ String " " ("LIMIT" ++ String " " lim))
    by (rewrite append_assoc; reflexivity).
  change (occ p ("SELECT" ++ String " " (cols_sql ++ String " "
                   ("FROM" ++ String " " (t ++ w ++ " LIMIT " ++ lim))))
          = (occ p w + occ p "LIMIT")%nat).
  rewrite E. do 5 rewrite occ_space.
  rewrite Hsel, Hfrom, (occ_select_sql ir cols_sql Hcols), Hlim.
  assert (Htw : occ p (t ++ w) = occ p w).
  { unfold w, IR2SQL.where_clause.
    destruct (map clause _) as [ | x rest].
    - replace (t ++ "") with t; [exact Ht | ].
      clear. induction t as [ | c t' IH]; simpl; congruence.
    - change (occ p (t ++ String " " ("WHERE " ++ join " AND " (x :: rest)))
              = occ p ("" ++ String " " ("WHERE " ++ join " AND " (x :: rest)))).
      do 2 rewrite occ_space. rewrite Ht. reflexivity. }
  rewrite Htw. simpl. lia.
Qed.
End CountingInQuery.

(* ================================================================== *)
(** * Shape of a synthesized query *)
(* ================================================================== *)

Lemma plain_facts (s : string) :
  plain s = true ->
  occ "%s" s = 0%nat /\ occ "LIMIT" s = 0%nat /\ occ "WHERE" s = 0%nat.
Proof.
  unfold plain. intros H.
  apply andb_true_iff in H as [H H3]. apply andb_true_iff in H as [H1 H2].
  apply Nat.eqb_eq in H1, H2, H3. auto.
Qed.

Lemma lookup_table_In (t : string) (tables : list (string * TableSchema))
    (ts : TableSchema) :
  DBSchema.lookup_table t tables = Some ts -> In (t, ts) tables.
Proof.
  induction tables as [ | [k v] rest IH]; simpl; intros H; [discriminate H | ].
  destruct (String.eqb t k) eqn:E.
  - apply String.eqb_eq in E. inversion H. subst. left. reflexivity.
  - right. apply IH. exact H.
Qed.

Section QueryShape.
Context {RT : PyRuntime}.
Variable self : IR2SQL.t.
Hypothesis Hplain : plain_config self = true.

Lemma plain_ops (o : string) :
  In o (IR2SQL.allowed_ops self) -> plain o = true.
Proof.
  unfold plain_config in Hplain. apply andb_true_iff in Hplain as [_ H].
  rewrite forallb_forall in H. apply H.
Qed.

Lemma plain_table_name (t : string) (ts : TableSchema) :
  DBSchema.lookup_table t (DBSchema._tables (IR2SQL._schema self)) = Some ts ->
  plain t = true /\ forall c, In c (columns ts) -> plain c = true.
Proof.
  intros H. apply lookup_table_In in H.
  unfold plain_config in Hplain. apply andb_true_iff in Hplain as [Ht _].
  rewrite forallb_forall in Ht. specialize (Ht _ H).
  unfold plain_table in Ht. simpl in Ht. apply andb_true_iff in Ht as [H1 H2].
  split; [exact H1 | ]. rewrite forallb_forall in H2. exact H2.
Qed.

(** Placeholders of one emitted condition against its parameters. *)
Lemma clause_placeholders (ts : TableSchema) (t : string) (cond : pyval) :
  DBSchema.lookup_table t (DBSchema._tables (IR2SQL._schema self)) = Some ts ->
  emitted self ts cond = true ->
  occ "%s" (clause cond) = length (clause_params cond)
  /\ occ "LIMIT" (clause cond) = 0%nat
  /\ occ "WHERE" (clause cond) = 0%nat.
Proof.
  intros Hlook He.
  destruct (plain_table_name t ts Hlook) as [_ Hc].
  assert (H1 := occ_clause self "%s" eq_refl ts
                  (fun c H => proj1 (plain_facts c (Hc c H)))
                  (fun o H => proj1 (plain_facts o (plain_ops o H))) cond He).
  assert (H2 := occ_clause self "LIMIT" eq_refl ts
                  (fun c H => proj1 (proj2 (plain_facts c (Hc c H))))
                  (fun o H => proj1 (proj2 (plain_facts o (plain_ops o H)))) cond He).
  assert (H3 := occ_clause self "WHERE" eq_refl ts
                  (fun c H => proj2 (proj2 (plain_facts c (Hc c H))))
                  (fun o H => proj2 (proj2 (plain_facts o (plain_ops o H)))) cond He).
  rewrite H1, H2, H3.
  destruct cond as [ | b | z | q | s | l | l | d]; try discriminate He.
  unfold clause_params.
  destruct (py_eq_str (dict_get d "op") "between");
    [ | destruct (py_eq_str (dict_get d "op") "like")];
    repeat split; reflexivity.
Qed.

Lemma kept_placeholders (ts : TableSchema) (t : string) (conds : list pyval) :
  DBSchema.lookup_table t (DBSchema._tables (IR2SQL._schema self)) = Some ts ->
  let kept := filter (emitted self ts) conds in
  list_sum (map (occ "%s") (map clause kept)) = length (flat_map clause_params kept)
  /\ list_sum (map (occ "LIMIT") (map clause kept)) = 0%nat
  /\ list_sum (map (occ "WHERE") (map clause kept)) = 0%nat.
Proof.
  intros Hlook. induction conds as [ | c rest IH]; simpl; [auto | ].
  destruct (emitted self ts c) eqn:E; [ | exact IH].
  destruct IH as (I1 & I2 & I3).
  destruct (clause_placeholders ts t c Hlook E) as (C1 & C2 & C3).
  cbn [map flat_map list_sum]. rewrite length_app.
  rewrite C1, C2, C3. simpl in *. rewrite I1, I2, I3. auto.
Qed.

Lemma row_limit_below_ceiling (ir : dict) :
  is_int (IR2SQL.row_limit self ir) = true
  /\ (int_value (IR2SQL.row_limit self ir) <= IR2SQL.max_limit self)%Z.
Proof.
  unfold IR2SQL.row_limit.
  destruct (dict_get ir "limit") as [ | [ | ] | z | | | | | ]; simpl;
    try (split; [reflexivity | lia]).
  - destruct (IR2SQL.max_limit self <? 1)%Z eqn:E; simpl;
      split; try reflexivity; lia.
  - destruct (z <=? 0)%Z; simpl; [split; [reflexivity | lia] | ].
    destruct (IR2SQL.max_limit self <? z)%Z eqn:E; simpl;
      split; try reflexivity; lia.
Qed.

(** C7.  Under a configuration whose identifiers are plain, every
    result of [build] is well formed: the text is the select part, the
    conditions of the emitted filters joined in their order, and one
    closing LIMIT; it holds as many placeholders as there are
    parameters, each emitted condition holding as many as the values it
    hands over (two for [between], the two items of its pair in order);
    the word LIMIT occurs once, followed by a value that is an integer
    not above the ceiling; and without emitted filter, in particular
    with an empty filter list, there is no WHERE. *)
Theorem build_well_formed (ir : dict) (r : SqlBuildResult) :
  IR2SQL.build self ir = Ok r ->
  exists ts conds cols_sql,
    DBSchema.ensure_table (IR2SQL._schema self) (dict_get ir "table") = Ok ts
    /\ filters_of ir = Ok conds
    /\ let kept := filter (emitted self ts) conds in
       sql r = "SELECT " ++ cols_sql ++ " FROM " ++ py_str (dict_get ir "table")
               ++ IR2SQL.where_clause (map clause kept)
               ++ " LIMIT " ++ py_str (IR2SQL.row_limit self ir)
       /\ params r = flat_map clause_params kept
       /\ occ "%s" (sql r) = length (params r)
       /\ Forall (fun c => occ "%s" (clause c) = length (clause_params c)) kept
       /\ (forall d, In (PDict d) kept ->
             py_eq_str (dict_get d "op") "between" = true ->
             exists a b,
               seq_items (dict_get d "value") = [a; b]
               /\ clause_params (PDict d) = [a; b]
               /\ occ "%s" (clause (PDict d)) = 2%nat)
       /\ occ "LIMIT" (sql r) = 1%nat
       /\ is_int (IR2SQL.row_limit self ir) = true
       /\ (int_value (IR2SQL.row_limit self ir) <= IR2SQL.max_limit self)%Z
       /\ occ "WHERE" (sql r) = match kept with [] => 0%nat | _ => 1%nat end
       /\ (conds = [] -> occ "WHERE" (sql r) = 0%nat).
Proof.
  intros H.
  destruct (build_ok_inv self ir r H)
    as (t & ts & cols & conds & Et & Hne & Hlook & Hcols & Hconds & Hd & ->).
  exists ts, conds, cols.
  destruct (plain_table_name t ts Hlook) as [Hpt Hpc].
  destruct (plain_facts t Hpt) as (T1 & T2 & T3).
  destruct (kept_placeholders ts t conds Hlook) as (K1 & K2 & K3).
  pose proof (occ_built self "%s" eq_refl ts
                (fun c Hc => proj1 (plain_facts c (Hpc c Hc)))
                ir t cols conds T1 Hcols) as B1.
  pose proof (occ_built self "LIMIT" eq_refl ts
                (fun c Hc => proj1 (proj2 (plain_facts c (Hpc c Hc))))
                ir t cols conds T2 Hcols) as B2.
  pose proof (occ_built self "WHERE" eq_refl ts
                (fun c Hc => proj2 (proj2 (plain_facts c (Hpc c Hc))))
                ir t cols conds T3 Hcols) as B3.
  rewrite (occ_where_clause "%s" eq_refl) in B1.
  rewrite (occ_where_clause "LIMIT" eq_refl) in B2.
  rewrite (occ_where_clause "WHERE" eq_refl) in B3.
  split.
  { rewrite Et. unfold DBSchema.ensure_table, DBSchema.get. simpl.
    rewrite Hlook. reflexivity. }
  split; [exact Hconds | ].
  intros kept. fold kept in K1, K2, K3, B1, B2, B3.
  assert (Hwhere : occ "WHERE" (sql (built self ir t cols ts conds))
                   = match kept with [] => 0%nat | _ => 1%nat end).
  { rewrite B3. destruct kept as [ | k rest] eqn:Ek; [reflexivity | ].
    cbn [map] in K3 |- *. rewrite K3. reflexivity. }
  repeat split.
  - rewrite Et. reflexivity.
  - rewrite B1. cbn [params built]. fold kept.
    destruct kept as [ | k rest] eqn:Ek; [reflexivity | ].
    cbn [map] in K1 |- *. rewrite K1. simpl. lia.
  - apply Forall_forall. intros c Hin. apply filter_In in Hin as [_ He].
    apply (clause_placeholders ts t c Hlook He).
  - intros d Hin Hb. apply filter_In in Hin as [_ He].
    pose proof (proj1 (clause_placeholders ts t _ Hlook He)) as Hc.
    unfold emitted in He. rewrite Hb in He. simpl in He.
    repeat (apply andb_true_iff in He as [He ?]).
    match goal with
    | Hp : is_pair _ = true |- _ =>
        unfold is_pair in Hp; apply andb_true_iff in Hp as [_ Hlen];
        apply Nat.eqb_eq in Hlen
    end.
    destruct (seq_items (dict_get d "value")) as [ | a [ | b [ | c rest]]] eqn:Es;
      try discriminate Hlen.
    exists a, b. unfold clause_params in *. rewrite Hb in *. rewrite Es in *.
    repeat split. exact Hc.
  - rewrite B2. destruct kept as [ | k rest] eqn:Ek; [reflexivity | ].
    cbn [map] in K2 |- *. rewrite K2. reflexivity.
  - apply row_limit_below_ceiling.
  - apply row_limit_below_ceiling.
  - exact Hwhere.
  - intros ->. exact Hwhere.
Qed.
End QueryShape.

Lemma build_well_formed_witness :
  occ "%s" "SELECT `id`, `title` FROM tender_project WHERE `amount` BETWEEN %s AND %s AND `title` LIKE %s LIMIT 100"
  = 3%nat
  /\ occ "LIMIT" "SELECT `id`, `title` FROM tender_project WHERE `amount` BETWEEN %s AND %s AND `title` LIKE %s LIMIT 100"
     = 1%nat.
Proof.
  destruct (build_well_formed (RT := ascii_runtime) sample_synthesizer eq_refl
              mixed_ir
              {| sql := "SELECT `id`, `title` FROM tender_project WHERE `amount` BETWEEN %s AND %s AND `title` LIKE %s LIMIT 100";
                 params := [PInt 10; PInt 20; PStr "%bridge%"] |}
              eq_refl)
    as (ts & conds & cols & _ & _ & _ & _ & H1 & _ & _ & H2 & _).
  split; [exact H1 | exact H2].
Defined.

(* ================================================================== *)
(** * Further properties of the router *)
(* ================================================================== *)

Section RouterMore.
Context {RT : PyRuntime}.

(** The route [route] answers is "hybrid" exactly for the queries whose
    lower-cased text holds no policy word, no sentiment word, a tender
    word and one of the two subsidy words 补贴 and 优惠. *)
Theorem route_hybrid_iff (intent_map : list (string * dict))
    (clf : option LlmClassifier) (query : string) :
  (exists r calls, QueryRouter.route intent_map clf query = Ok (r, calls)
                   /\ route r = Route.HYBRID)
  <->
  any_in ["政策"; "扶持"; "规范"; "办法"; "通知"; "条例"] (str_lower query) = false
  /\ any_in ["舆情"; "口碑"; "负面"; "风险"; "投诉"; "舆论"] (str_lower query) = false
  /\ any_in ["招标"; "中标"; "投标"; "项目"; "标段"] (str_lower query) = true
  /\ any_in ["补贴"; "优惠"] (str_lower query) = true.
Proof.
  assert (Hsub : forall q,
             any_in ["政策"; "扶持"; "规范"; "办法"; "通知"; "条例"] q = false ->
             any_in ["政策"; "扶持"; "补贴"; "优惠"] q = any_in ["补贴"; "优惠"] q).
  { intros q H. unfold any_in in *. simpl in *.
    apply orb_false_iff in H as [H1 H]. apply orb_false_iff in H as [H2 _].
    rewrite H1, H2. reflexivity. }
  unfold QueryRouter.route.
  pose proof (rule_based_route_not_other query) as Hother.
  pose proof (hybrid_exit_iff query) as Hhyb.
  pose proof (rule_based_route_exits query) as Hexits.
  destruct (QueryRouter._rule_based_route query) as [[i e] r0] eqn:E.
  simpl in Hother. rewrite Hother.
  assert (Hres : forall r calls,
             (let '(intent1, route1, calls0) :=
                match clf with
                | Some _ => (i, r0, @nil string)
                | None => (i, r0, [])
                end in
              _ <- SimpleLogger_call 0 ;;
              Ok ({| route := route1; intent := intent1;
                     entity_type := e; reason := None |}, calls0))
             = Ok (r, calls) -> route r = r0).
  { intros r calls H. destruct clf; simpl in H; inversion H; reflexivity. }
  split.
  - intros (r & calls & H & Hr). apply Hres in H. rewrite Hr in H. subst r0.
    assert (Hx : (i, e, Route.HYBRID) = ("hybrid_query", Some "tender", Route.HYBRID)).
    { simpl in Hexits.
      repeat (destruct Hexits as [Hexits | Hexits];
              [inversion Hexits; subst; try reflexivity; discriminate | ]).
      contradiction. }
    apply Hhyb in Hx. destruct Hx as (H1 & H2 & H3 & H4).
    rewrite (Hsub _ H1) in H4. auto.
  - intros (H1 & H2 & H3 & H4).
    assert (Hx : (i, e, r0) = ("hybrid_query", Some "tender", Route.HYBRID)).
    { apply Hhyb. rewrite (Hsub _ H1). auto. }
    inversion Hx; subst.
    destruct clf; simpl; eexists _, _; split; reflexivity.
Qed.

(** [_intent_to_route] answers one of the four route names, and answers
    "rag", "sql" or "hybrid" only when that is the text bound to the
    key [route], or to the key [router] when [route] is missing or
    empty, in the entry of the intent. *)
Theorem intent_to_route_range (intent_map : list (string * dict))
    (intent : string) :
  let r := QueryRouter._intent_to_route intent_map intent in
  In r [Route.RAG; Route.SQL; Route.HYBRID; Route.OTHER]
  /\ (r <> Route.OTHER ->
      py_or (dict_get (QueryRouter.lookup_conf intent intent_map) "route")
            (dict_get (QueryRouter.lookup_conf intent intent_map) "router")
      = PStr r).
Proof.
  unfold QueryRouter._intent_to_route.
  set (v := py_or _ _).
  destruct (py_in_strs v [Route.RAG; Route.SQL; Route.HYBRID]) eqn:E.
  - apply py_in_strs_inv in E as (s & -> & Hin). simpl.
    split; [simpl in Hin; tauto | reflexivity].
  - simpl. split; [tauto | intros H; contradiction H; reflexivity].
Qed.
End RouterMore.

(* ================================================================== *)
(** * Properties of the schema registry *)
(* ================================================================== *)

Lemma lookup_set_table (t name : string) (ts : TableSchema)
    (tables : list (string * TableSchema)) :
  DBSchema.lookup_table t (set_table name ts tables)
  = if String.eqb t name then Some ts else DBSchema.lookup_table t tables.
Proof.
  induction tables as [ | [k v] rest IH]; simpl.
  - reflexivity.
  - destruct (String.eqb name k) eqn:E; simpl.
    + apply String.eqb_eq in E. subst k.
      destruct (String.eqb t name); reflexivity.
    + destruct (String.eqb t k) eqn:Etk.
      * apply String.eqb_eq in Etk. subst k.
        rewrite String.eqb_sym, E. reflexivity.
      * exact IH.
Qed.

Section RegistryFacts.
Context {RT : PyRuntime}.
Variable str_upper : string -> string.

Lemma find_primary_key_In (cols : list (string * pyval)) (pk : string) :
  find_primary_key str_upper cols = Some pk -> In pk (map fst cols).
Proof.
  induction cols as [ | [c decl] rest IH]; simpl; intros H; [discriminate H | ].
  destruct decl; try (right; apply IH; exact H).
  destruct (contains "PRIMARY KEY" (str_upper s)).
  - inversion H. left. reflexivity.
  - right. apply IH. exact H.
Qed.

Lemma load_table_ok (t : string) (t_cfg : pyval) (ts : TableSchema) :
  load_table str_upper t t_cfg = Ok ts ->
  name ts = t
  /\ (exists cols,
        obj_get_default t_cfg "columns" (PDict []) = Ok (PDict cols)
        /\ columns ts = map fst cols)
  /\ (forall pk, primary_key ts = Some pk -> In pk (columns ts)).
Proof.
  unfold load_table. intros H.
  apply bind_ok_inv in H as (cols_def & Hc & H).
  apply bind_ok_inv in H as (cols & Hi & H).
  inversion H; subst ts; clear H. simpl.
  destruct cols_def; try discriminate Hi. inversion Hi; subst.
  split; [reflexivity | ]. split.
  - exists cols. auto.
  - intros pk. apply find_primary_key_In.
Qed.

Lemma load_tables_ok (entries : list (string * pyval)) :
  forall (seen : list (string * pyval)) tables result,
    loaded_from str_upper seen tables ->
    load_tables str_upper entries tables = Ok result ->
    loaded_from str_upper (seen ++ entries) result
    /\ (forall t t_cfg, In (t, t_cfg) entries ->
                        exists ts, DBSchema.lookup_table t result = Some ts)
    /\ (forall t ts, DBSchema.lookup_table t tables = Some ts ->
                     exists ts', DBSchema.lookup_table t result = Some ts').
Proof.
  induction entries as [ | [n t_cfg] rest IH]; intros seen tables result Hinv H.
  - simpl in H. inversion H; subst. rewrite app_nil_r.
    split; [exact Hinv | ]. split.
    + intros t c [].
    + intros t ts Hl. exists ts. exact Hl.
  - simpl in H. apply bind_ok_inv in H as (ts0 & Hload & H).
    assert (Hinv' : loaded_from str_upper (seen ++ [(n, t_cfg)]) (set_table n ts0 tables)).
    { intros t ts Hl. rewrite lookup_set_table in Hl.
      destruct (String.eqb t n) eqn:E.
      - apply String.eqb_eq in E. subst t. inversion Hl; subst.
        exists t_cfg. split; [apply in_or_app; right; left; reflexivity | exact Hload].
      - destruct (Hinv t ts Hl) as (c & Hin & Hc).
        exists c. split; [apply in_or_app; left; exact Hin | exact Hc]. }
    destruct (IH (seen ++ [(n, t_cfg)])%list _ _ Hinv' H) as (I1 & I2 & I3).
    rewrite <- app_assoc in I1. simpl in I1.
    split; [exact I1 | ]. split.
    + intros t c [Heq | Hin].
      * inversion Heq; subst. apply (I3 t ts0).
        rewrite lookup_set_table, String.eqb_refl. reflexivity.
      * apply (I2 t c Hin).
    + intros t ts Hl.
      destruct (String.eqb t n) eqn:E.
      * apply (I3 t ts0). rewrite lookup_set_table, E. reflexivity.
      * apply (I3 t ts). rewrite lookup_set_table, E. exact Hl.
Qed.

(** After [DBSchema.__init__] has run on a document, [get] finds a
    schema for every table name declared under [sql_tables]; every schema
    it finds bears the name it is found under, lists the declared column
    names of a declared entry of that name in their order, and has a
    primary key, if any, that is one of its columns. *)
Theorem DBSchema_init_lookup (cfg : pyval) (self : DBSchema.t) :
  DBSchema_init str_upper cfg = Ok self ->
  exists entries,
    (sql_tables <- obj_get_default cfg "sql_tables" (PDict []) ;;
     obj_items sql_tables) = Ok entries
    /\ (forall t t_cfg, In (t, t_cfg) entries ->
          exists ts, DBSchema.get self (PStr t) = Ok (Some ts))
    /\ (forall t ts, DBSchema.get self (PStr t) = Ok (Some ts) ->
          name ts = t
          /\ (exists t_cfg cols,
                In (t, t_cfg) entries
                /\ obj_get_default t_cfg "columns" (PDict []) = Ok (PDict cols)
                /\ columns ts = map fst cols)
          /\ (forall pk, primary_key ts = Some pk ->
                         has_column ts (PStr pk) = true)).
Proof.
  unfold DBSchema_init. intros H.
  apply bind_ok_inv in H as (sql_tables & Hs & H).
  apply bind_ok_inv in H as (entries & He & H).
  apply bind_ok_inv in H as (tables & Ht & H).
  simpl in H. inversion H; subst self; clear H.
  exists entries. rewrite Hs. simpl. split; [exact He | ].
  assert (Hempty : loaded_from str_upper [] []) by (intros t ts Hl; discriminate Hl).
  destruct (load_tables_ok entries [] [] tables Hempty Ht) as (I1 & I2 & _).
  simpl in I1. unfold DBSchema.get. simpl. split.
  - intros t c Hin. destruct (I2 t c Hin) as (ts & Hl). exists ts. rewrite Hl. reflexivity.
  - intros t ts Hg. inversion Hg as [Hl]. clear Hg.
    destruct (I1 t ts Hl) as (c & Hin & Hload).
    destruct (load_table_ok t c ts Hload) as (Hn & (cols & Hc & Hcols) & Hpk).
    split; [exact Hn | ]. split.
    + exists c, cols. auto.
    + intros pk Hp. unfold has_column. apply py_in_strs_str. apply Hpk. exact Hp.
Qed.
End RegistryFacts.

(** [ensure_table] answers a schema exactly for a string that is bound
    in the registry; any other value makes it raise. *)
Theorem ensure_table_iff {RT : PyRuntime} (self : DBSchema.t) (table : pyval)
    (ts : TableSchema) :
  DBSchema.ensure_table self table = Ok ts
  <-> exists t, table = PStr t
                /\ DBSchema.lookup_table t (DBSchema._tables self) = Some ts.
Proof.
  split.
  - unfold DBSchema.ensure_table, DBSchema.get. intros H.
    destruct (hashable table); simpl in H; [ | discriminate H].
    destruct table; simpl in H; try discriminate H.
    exists s. split; [reflexivity | ].
    destruct (DBSchema.lookup_table s _); [ | discriminate H].
    inversion H. reflexivity.
  - intros (t & -> & Hl). unfold DBSchema.ensure_table, DBSchema.get.
    simpl. rewrite Hl. reflexivity.
Qed.

(* ================================================================== *)
(** * Further properties of the query synthesizer *)
(* ================================================================== *)

Section SynthesizerMore.
Context {RT : PyRuntime}.
Variable self : IR2SQL.t.

(** [build] returns exactly when the table entry is a non-empty string
    bound in the registry, the select list passes the column check and
    the filters are an iterable of mappings; the limit entry, the values
    of the filters and their operators never make it fail. *)
Theorem build_returns_iff (ir : dict) :
  returns (IR2SQL.build self ir)
  <->
  exists t ts cols_sql conds,
    dict_get ir "table" = PStr t
    /\ t <> ""
    /\ DBSchema.lookup_table t (DBSchema._tables (IR2SQL._schema self)) = Some ts
    /\ IR2SQL.select_sql ts ir = Ok cols_sql
    /\ filters_of ir = Ok conds
    /\ forallb is_dict conds = true.
Proof.
  split.
  - intros [r H].
    destruct (build_ok_inv self ir r H)
      as (t & ts & cols & conds & H1 & H2 & H3 & H4 & H5 & H6 & _).
    exists t, ts, cols, conds. tauto.
  - intros (t & ts & cols & conds & H1 & H2 & H3 & H4 & H5 & H6).
    eexists. apply (build_ok_intro self ir t cols ts conds); assumption.
Qed.

(** A requested limit that is a positive integer is written as it is
    when it does not exceed the ceiling and replaced by the ceiling when
    it does; a limit that is zero or negative is replaced by the
    ceiling. *)
Theorem row_limit_of_int (ir : dict) (n : Z) :
  dict_get ir "limit" = PInt n ->
  IR2SQL.row_limit self ir
  = PInt (if (0 <? n)%Z && (n <=? IR2SQL.max_limit self)%Z
          then n else IR2SQL.max_limit self).
Proof.
  intros H. unfold IR2SQL.row_limit. rewrite H. simpl.
  destruct (n <=? 0)%Z eqn:E1; destruct (0 <? n)%Z eqn:E2; simpl; try lia;
    try reflexivity.
  destruct (IR2SQL.max_limit self <? n)%Z eqn:E3;
    destruct (n <=? IR2SQL.max_limit self)%Z eqn:E4; try lia; reflexivity.
Qed.

(** A limit entry that is missing or is not an integer (a float, a
    string, a list) is replaced by the ceiling. *)
Theorem row_limit_default (ir : dict) :
  is_int (dict_get ir "limit") = false ->
  IR2SQL.row_limit self ir = PInt (IR2SQL.max_limit self).
Proof.
  intros H. unfold IR2SQL.row_limit. rewrite H.
  rewrite orb_true_r. reflexivity.
Qed.

(** No filter hands over more than two parameters, and no filter gives
    more than one condition: a result of [build] has at most twice as
    many parameters as the IR has filters. *)
Theorem build_params_bound (ir : dict) (r : SqlBuildResult) :
  IR2SQL.build self ir = Ok r ->
  exists conds,
    filters_of ir = Ok conds
    /\ (length (params r) <= 2 * length conds)%nat.
Proof.
  intros H.
  destruct (build_ok_inv self ir r H)
    as (t & ts & cols & conds & _ & _ & _ & _ & Hconds & _ & ->).
  exists conds. split; [exact Hconds | ].
  unfold built. cbn [params]. clear.
  induction conds as [ | c rest IH]; [simpl; lia | ].
  cbn [filter]. destruct (emitted self ts c).
  - cbn [flat_map length]. rewrite length_app.
    assert (length (clause_params c) <= 2)%nat.
    { unfold clause_params. destruct c; simpl; try lia.
      destruct (py_eq_str _ "between"); [simpl; lia | ].
      destruct (py_eq_str _ "like"); simpl; lia. }
    lia.
  - cbn [length]. lia.
Qed.
End SynthesizerMore.

Lemma row_limit_of_int_witness :
  IR2SQL.row_limit sample_synthesizer mixed_ir = PInt 100.
Proof.
  exact (row_limit_of_int sample_synthesizer mixed_ir 500 eq_refl).
Defined.

Lemma row_limit_default_witness :
  IR2SQL.row_limit sample_synthesizer amount_ir = PInt 100.
Proof.
  exact (row_limit_default sample_synthesizer amount_ir eq_refl).
Defined.

Lemma build_params_bound_witness :
  exists conds,
    filters_of mixed_ir = Ok conds
    /\ (3 <= 2 * length conds)%nat.
Proof.
  exact (build_params_bound (RT := ascii_runtime) sample_synthesizer mixed_ir
           {| sql := "SELECT `id`, `title` FROM tender_project WHERE `amount` BETWEEN %s AND %s AND `title` LIKE %s LIMIT 100";
              params := [PInt 10; PInt 20; PStr "%bridge%"] |} eq_refl).
Defined.

(* ================================================================== *)
(** * Properties of the structural validator *)
(* ================================================================== *)

Lemma length_zero_app {A : Type} (l m : list A) :
  (length (l ++ m) =? 0)%nat = (length l =? 0)%nat && (length m =? 0)%nat.
Proof. destruct l; reflexivity. Qed.

Lemma length_zero_nil {A : Type} (l : list A) :
  (length l =? 0)%nat = true -> l = [].
Proof. destruct l; [reflexivity | discriminate]. Qed.

Section ValidatorFacts.
Context {RT : PyRuntime}.
Variable self : IRSchemaValidator.t.

Lemma single_filter_dict (d : dict) (idx : nat) :
  exists es,
    IRSchemaValidator._validate_single_filter self (PDict d) idx = Ok es
    /\ (length es =? 0)%nat = filter_accepted self (PDict d).
Proof.
  unfold IRSchemaValidator._validate_single_filter, filter_accepted.
  cbn [obj_get bind].
  destruct (truthy (dict_get d "field"));
    destruct (truthy (dict_get d "op"));
    destruct (py_in_strs (dict_get d "op") (IRSchemaValidator.allowed_ops self));
    destruct (py_eq_str (dict_get d "op") "between");
    destruct (py_eq_str (dict_get d "op") "like");
    destruct (IRSchemaValidator.allow_fuzzy self);
    cbn [negb andb orb bind];
    try (destruct (is_list_or_tuple (dict_get d "value")
                   && (length (seq_items (dict_get d "value")) =? 2)%nat
                   && forallb (fun v => negb (is_none v))
                        (seq_items (dict_get d "value")));
         cbn [negb andb orb bind]);
    eexists; split; reflexivity.
Qed.

Lemma single_filter_not_dict (cond : pyval) (idx : nat) :
  is_dict cond = false ->
  IRSchemaValidator._validate_single_filter self cond idx = Raise AttributeError.
Proof. destruct cond; try discriminate; reflexivity. Qed.

Lemma validate_filters_spec (conds : list pyval) :
  forall idx,
    match IRSchemaValidator.validate_filters self conds idx with
    | Ok es => (length es =? 0)%nat = forallb (filter_accepted self) conds
    | Raise _ => forallb (filter_accepted self) conds = false
    end.
Proof.
  induction conds as [ | cond rest IH]; intros idx; [reflexivity | ].
  cbn [IRSchemaValidator.validate_filters forallb].
  destruct (is_dict cond) eqn:E.
  - destruct cond; try discriminate E.
    destruct (single_filter_dict d idx) as (es & -> & Hes).
    cbn [bind]. specialize (IH (S idx)).
    destruct (IRSchemaValidator.validate_filters self rest (S idx)) as [es' | e];
      cbn [bind].
    + rewrite length_zero_app, Hes, IH. reflexivity.
    + rewrite IH. apply andb_false_r.
  - rewrite (single_filter_not_dict cond idx E). cbn [bind].
    destruct cond; try discriminate E; reflexivity.
Qed.

Lemma missing_required_none (ir : dict) (fields : list string) :
  (length (map (fun field => "missing required field: " ++ field)
             (filter (fun field => negb (has_key ir field)) fields)) =? 0)%nat
  = forallb (has_key ir) fields.
Proof.
  induction fields as [ | f rest IH]; [reflexivity | ].
  cbn [filter forallb]. destruct (has_key ir f); simpl; [exact IH | reflexivity].
Qed.

Lemma finish_validate (errs : list string)
    (r : IRSchemaValidator.SchemaValidationResult) :
  (_ <- (if (length errs =? 0)%nat then SimpleLogger_call 0
         else SimpleLogger_call 1) ;;
   Ok {| IRSchemaValidator.ok := (length errs =? 0)%nat;
         IRSchemaValidator.errors := errs |}) = Ok r
  <-> (length errs =? 0)%nat = true
      /\ r = {| IRSchemaValidator.ok := true; IRSchemaValidator.errors := [] |}.
Proof.
  destruct errs as [ | e rest]; simpl.
  - split; [intros H; inversion H; auto | intros [_ ->]; reflexivity].
  - split; [intros H; discriminate H | intros [H _]; discriminate H].
Qed.

Lemma validate_ok_iff_accepted (ir : dict)
    (r : IRSchemaValidator.SchemaValidationResult) :
  IRSchemaValidator.validate self ir = Ok r
  <-> accepted self ir = true
      /\ r = {| IRSchemaValidator.ok := true; IRSchemaValidator.errors := [] |}.
Proof.
  unfold IRSchemaValidator.validate, accepted. cbv zeta.
  set (enum_values := IRSchemaValidator._parse_enum _).
  set (filters := dict_get_default ir "filters" (PList [])).
  match goal with
  | |- context [map ?f (filter ?g ?l)] => set (e_required := map f (filter g l))
  end.
  match goal with
  | |- context [if negb (length enum_values =? 0)%nat && ?c then ?a else ?b] =>
      set (e_query_type := if negb (length enum_values =? 0)%nat && c then a else b)
  end.
  pose proof (missing_required_none ir (IRSchemaValidator.required_fields self))
    as Hreq. fold e_required in Hreq.
  assert (Hqt : (length e_query_type =? 0)%nat
                = ((length enum_values =? 0)%nat
                   || py_in_strs (dict_get ir "query_type") enum_values)).
  { unfold e_query_type. destruct (length enum_values =? 0)%nat; simpl;
      [reflexivity | ].
    destruct (py_in_strs _ enum_values); reflexivity. }
  rewrite <- Hreq, <- Hqt.
  destruct (is_list filters) eqn:El; cbn [negb].
  - pose proof (validate_filters_spec (seq_items filters) 0) as Hf.
    destruct (IRSchemaValidator.validate_filters self (seq_items filters) 0)
      as [e_each | e]; cbn [bind].
    + match goal with
      | |- context [if (IRSchemaValidator.max_filters self <? ?n)%Z then ?a else ?b] =>
          set (e_many := if (IRSchemaValidator.max_filters self <? n)%Z then a else b)
      end.
      assert (Hm : (length e_many =? 0)%nat
                   = (Z.of_nat (length (seq_items filters))
                      <=? IRSchemaValidator.max_filters self)%Z).
      { unfold e_many.
        destruct (IRSchemaValidator.max_filters self
                  <? Z.of_nat (length (seq_items filters)))%Z eqn:E;
          simpl; symmetry; [apply Z.leb_gt | apply Z.leb_le]; lia. }
      rewrite <- Hf, <- Hm. rewrite finish_validate, !length_zero_app.
      rewrite !andb_true_iff. tauto.
    + rewrite Hf, !andb_false_r.
      split; [intros H; discriminate H | intros [H _]; discriminate H].
  - cbn [bind]. rewrite finish_validate, !length_zero_app.
    rewrite ?andb_false_r. simpl. rewrite ?andb_false_r.
    split; intros [H _]; discriminate H.
Qed.

(** [validate] returns exactly on the IRs it has no objection to, and
    then reports [ok] with no error; on any other IR it raises (a logged
    error list makes the log call fail, a filter that is no mapping has
    no [get]). *)
Theorem validate_returns_iff (ir : dict) :
  (forall r,
     IRSchemaValidator.validate self ir = Ok r
     <-> accepted self ir = true
         /\ r = {| IRSchemaValidator.ok := true; IRSchemaValidator.errors := [] |})
  /\ (accepted self ir = false -> raises (IRSchemaValidator.validate self ir)).
Proof.
  split.
  - intros r. apply validate_ok_iff_accepted.
  - intros Hacc.
    destruct (IRSchemaValidator.validate self ir) as [r | e] eqn:E.
    + apply validate_ok_iff_accepted in E as [Ht _]. congruence.
    + exists e. reflexivity.
Qed.

End ValidatorFacts.

(* ================================================================== *)
(** * The validator and the synthesizer together *)
(* ================================================================== *)

Section ValidatedSynthesis.
Context {RT : PyRuntime}.
Variable validator : IRSchemaValidator.t.
Variable synthesizer : IR2SQL.t.

Lemma accepted_filter_emitted (ts : TableSchema) (d : dict) :
  (forall o, In o (IRSchemaValidator.allowed_ops validator) ->
             In o (IR2SQL.allowed_ops synthesizer)) ->
  filter_accepted validator (PDict d) = true ->
  has_column ts (dict_get d "field") = true ->
  emitted synthesizer ts (PDict d) = true.
Proof.
  intros Hops Ha Hc. unfold filter_accepted in Ha. unfold emitted, is_pair.
  repeat (apply andb_true_iff in Ha as [Ha ?]).
  match goal with
  | Hp : py_in_strs _ (IRSchemaValidator.allowed_ops validator) = true |- _ =>
      apply py_in_strs_inv in Hp as (o & Eo & Ho)
  end.
  rewrite Ha, Hc. rewrite Eo in *.
  rewrite (py_in_strs_str o _ (Hops o Ho)).
  assert (Ht : truthy (PStr o) = true) by assumption. rewrite Ht.
  cbn [andb].
  destruct (py_eq_str (PStr o) "between"); [ | reflexivity].
  cbn [negb orb] in *.
  match goal with
  | Hb : _ && _ && _ = true |- _ =>
      apply andb_true_iff in Hb as [Hb _]; exact Hb
  end.
Qed.

Lemma accepted_filters_of (ir : dict) :
  is_list (dict_get_default ir "filters" (PList [])) = true ->
  filters_of ir = Ok (seq_items (dict_get_default ir "filters" (PList []))).
Proof.
  unfold filters_of, dict_get, dict_get_default.
  destruct (lookup "filters" ir) as [v | ]; [ | reflexivity].
  destruct v; try discriminate. destruct l; reflexivity.
Qed.

(** An IR that [validate] lets through loses no filter in [build]: when
    the synthesizer allows every operator the validator allows, the
    table resolves, the select list passes and every filter names a
    column, the WHERE clause holds one condition per filter, in order,
    and every filter hands over its parameters. *)
Theorem validated_ir_keeps_all_filters (ir : dict)
    (r : IRSchemaValidator.SchemaValidationResult)
    (t cols_sql : string) (ts : TableSchema) :
  IRSchemaValidator.validate validator ir = Ok r ->
  (forall o, In o (IRSchemaValidator.allowed_ops validator) ->
             In o (IR2SQL.allowed_ops synthesizer)) ->
  dict_get ir "table" = PStr t ->
  t <> "" ->
  DBSchema.lookup_table t (DBSchema._tables (IR2SQL._schema synthesizer)) = Some ts ->
  IR2SQL.select_sql ts ir = Ok cols_sql ->
  (forall d, In (PDict d) (seq_items (dict_get_default ir "filters" (PList []))) ->
             has_column ts (dict_get d "field") = true) ->
  let conds := seq_items (dict_get_default ir "filters" (PList [])) in
  filters_of ir = Ok conds
  /\ IR2SQL.build synthesizer ir
     = Ok {| sql := "SELECT " ++ cols_sql ++ " FROM " ++ t
                    ++ IR2SQL.where_clause (map clause conds)
                    ++ " LIMIT " ++ py_str (IR2SQL.row_limit synthesizer ir);
             params := flat_map clause_params conds |}.
Proof.
  intros Hv Hops Ht Hne Hlook Hcols Hfields conds.
  apply validate_ok_iff_accepted in Hv as [Hacc _].
  unfold accepted in Hacc.
  repeat (apply andb_true_iff in Hacc as [Hacc ?]).
  match goal with
  | Hl : is_list _ = true |- _ => pose proof (accepted_filters_of ir Hl) as Hfo
  end.
  assert (Hdict : forallb is_dict conds = true).
  { apply forallb_forall. intros c Hin.
    match goal with
    | Hf : forallb (filter_accepted validator) _ = true |- _ =>
        rewrite forallb_forall in Hf; specialize (Hf c Hin)
    end.
    destruct c; try discriminate. reflexivity. }
  assert (Hkept : filter (emitted synthesizer ts) conds = conds).
  { apply forallb_filter_id. apply forallb_forall. intros c Hin.
    match goal with
    | Hf : forallb (filter_accepted validator) _ = true |- _ =>
        rewrite forallb_forall in Hf; pose proof (Hf c Hin) as Hc
    end.
    destruct c; try discriminate Hc.
    apply accepted_filter_emitted; auto. }
  split; [exact Hfo | ].
  rewrite (build_ok_intro synthesizer ir t cols_sql ts conds); auto.
  unfold built. rewrite Hkept. reflexivity.
Qed.
End ValidatedSynthesis.

(* ================================================================== *)
(** * Further properties of the business validator *)
(* ================================================================== *)

Section BusinessMore.
Context {RT : PyRuntime}.
Variable self : BusinessValidator.t.

(** An IR whose structured conditions (an empty mapping when the key is
    missing) hold neither an [amount_range] mapping nor a [date_range]
    mapping passes with [ok] and no warning. *)
Theorem validate_ir_without_ranges (ir : dict) (sc : dict) :
  dict_get_default ir "structured_conditions" (PDict []) = PDict sc ->
  is_dict (dict_get sc "amount_range") = false ->
  is_dict (dict_get sc "date_range") = false ->
  BusinessValidator.validate_ir self ir
  = Ok {| BusinessValidator.ok := true; BusinessValidator.warnings := [] |}.
Proof.
  intros Hsc Ha Hd. unfold BusinessValidator.validate_ir.
  rewrite Hsc. cbn [obj_get bind].
  destruct (dict_get sc "amount_range"); try discriminate Ha;
    destruct (dict_get sc "date_range"); try discriminate Hd; reflexivity.
Qed.

(** An [amount_range] with integer bounds that lie within the
    configured minimum and maximum, the lower one not above the upper
    one, passes with [ok] and no warning when there is no [date_range]
    mapping. *)
Theorem validate_ir_amount_in_range (ir : dict) (sc d : dict) (lo hi : Z) :
  dict_get_default ir "structured_conditions" (PDict []) = PDict sc ->
  dict_get sc "amount_range" = PDict d ->
  dict_get d "min" = PInt lo ->
  dict_get d "max" = PInt hi ->
  is_dict (dict_get sc "date_range") = false ->
  (BusinessValidator.amount_min self <= inject_Z lo)%Q ->
  (inject_Z hi <= BusinessValidator.amount_max self)%Q ->
  (lo <= hi)%Z ->
  BusinessValidator.validate_ir self ir
  = Ok {| BusinessValidator.ok := true; BusinessValidator.warnings := [] |}.
Proof.
  intros Hsc Ha Hmin Hmax Hd Hlo Hhi Hle. unfold BusinessValidator.validate_ir.
  rewrite Hsc. cbn [obj_get bind]. rewrite Ha, Hmin, Hmax.
  unfold BusinessValidator.not_none_and, py_gt. cbn [is_none py_lt as_number bind].
  rewrite (proj2 (Qlt_bool_false _ _) Hlo).
  rewrite (proj2 (Qlt_bool_false _ _) Hhi).
  assert (Hq : (inject_Z lo <= inject_Z hi)%Q) by (rewrite <- Zle_Qle; exact Hle).
  rewrite (proj2 (Qlt_bool_false _ _) Hq).
  cbn [app bind].
  destruct (dict_get sc "date_range"); try discriminate Hd; reflexivity.
Qed.

(** A lower bound above the upper bound is never reported to the caller:
    the warning is collected and the log call that follows raises. *)
Theorem validate_ir_swapped_bounds_raise (ir : dict) (sc d : dict) (lo hi : Z) :
  dict_get_default ir "structured_conditions" (PDict []) = PDict sc ->
  dict_get sc "amount_range" = PDict d ->
  dict_get d "min" = PInt lo ->
  dict_get d "max" = PInt hi ->
  (hi < lo)%Z ->
  raises (BusinessValidator.validate_ir self ir).
Proof.
  intros Hsc Ha Hmin Hmax Hlt.
  destruct (BusinessValidator.validate_ir self ir) as [r | e] eqn:E;
    [ | eexists; reflexivity].
  exfalso.
  pose proof (validate_ir_returns_only_clean self ir r E) as [_ Hw].
  unfold BusinessValidator.validate_ir in E.
  rewrite Hsc in E. cbn [obj_get bind] in E. rewrite Ha, Hmin, Hmax in E.
  unfold BusinessValidator.not_none_and, py_gt in E.
  cbn [is_none py_lt as_number bind] in E.
  assert (Hq : Qlt_bool (inject_Z hi) (inject_Z lo) = true).
  { apply Qlt_bool_iff. rewrite <- Zlt_Qlt. exact Hlt. }
  rewrite Hq in E.
  apply bind_ok_inv in E as (u & _ & E). inversion E; subst r; clear E.
  cbn [BusinessValidator.warnings] in Hw.
  apply (f_equal (@length string)) in Hw.
  rewrite !length_app in Hw. simpl in Hw. lia.
Qed.
End BusinessMore.

Section BusinessResult.
Context {RT : PyRuntime}.

(** Whatever the IR, a result that [validate_ir] returns is the clean
    one: [ok] is true and the list of warnings is empty.  No warning
    ever reaches the caller. *)
Theorem validate_ir_result_is_clean (self : BusinessValidator.t) (ir : dict)
    (r : BusinessValidator.BusinessValidationResult) :
  BusinessValidator.validate_ir self ir = Ok r ->
  r = {| BusinessValidator.ok := true; BusinessValidator.warnings := [] |}.
Proof.
  intros H. destruct (validate_ir_returns_only_clean self ir r H) as [H1 H2].
  destruct r as [o w]. simpl in *. subst. reflexivity.
Qed.
End BusinessResult.

(* ================================================================== *)
(** * Further properties of the confidence arithmetic *)
(* ================================================================== *)

Section ConfidenceMore.
Import ConfidenceChecker.

Lemma sql_score_unit (count : Z) :
  (0 <= sql_score count)%Q /\ (sql_score count <= 1)%Q.
Proof.
  unfold sql_score, py_min2.
  set (x := (inject_Z (Z.max 0 count) / 50)%Q).
  assert (Hx0 : (0 <= x)%Q).
  { unfold x. apply Qle_shift_div_l; [reflexivity | ].
    rewrite Qmult_0_l. change 0%Q with (inject_Z 0). rewrite <- Zle_Qle. lia. }
  destruct (Qlt_bool x 1) eqn:E.
  - apply Qlt_bool_iff in E. split; [exact Hx0 | apply Qlt_le_weak; exact E].
  - split; [discriminate | apply Qle_refl].
Qed.


(** When every score handed to the fuser lies between 0 and 1, so does
    the value bound to [final_score]. *)
Theorem final_score_in_unit_interval (inputs : ConfidenceInput)
    (scores : list Q) (s : Q) :
  Forall (fun x => 0 <= x /\ x <= 1)%Q (items (retriever_scores inputs)) ->
  Forall (fun x => 0 <= x /\ x <= 1)%Q (items (reranker_scores inputs)) ->
  collect_scores inputs = Ok scores ->
  final_score_of scores = Ok s ->
  (0 <= s)%Q /\ (s <= 1)%Q.
Proof.
  intros H1 H2 Hc Hf.
  assert (Hsub : forall xs,
             Forall (fun x => 0 <= x /\ x <= 1)%Q (items xs) ->
             forall l,
               (if nonempty xs then m <- py_max (items xs) ;; Ok [m] else Ok [])
               = Ok l ->
               Forall (fun x => 0 <= x /\ x <= 1)%Q l).
  { intros xs Hxs l Hl. destruct xs as [[ | x rest] | ]; simpl in Hl;
      inversion Hl; subst; constructor; [ | constructor].
    simpl in Hxs. rewrite Forall_forall in Hxs. apply Hxs.
    apply max_from_member. }
  unfold collect_scores in Hc.
  apply bind_ok_inv in Hc as (s1 & E1 & Hc).
  apply bind_ok_inv in Hc as (s2 & E2 & Hc).
  inversion Hc; subst scores; clear Hc.
  assert (Hall : Forall (fun x => 0 <= x /\ x <= 1)%Q
                   (s1 ++ s2 ++
                    match sql_row_count inputs with
                    | Some c => [sql_score c]
                    | None => []
                    end)).
  { apply Forall_app. split; [apply (Hsub _ H1 _ E1) | ].
    apply Forall_app. split; [apply (Hsub _ H2 _ E2) | ].
    destruct (sql_row_count inputs) as [c | ]; constructor; [ | constructor].
    apply sql_score_unit. }
  destruct (s1 ++ s2 ++ _)%list as [ | y ys] eqn:El; simpl in Hf;
    inversion Hf; subst s.
  - split; discriminate.
  - rewrite Forall_forall in Hall. apply Hall. apply max_from_member.
Qed.

(** The value bound to [final_score] is at least every retrieval score,
    every re-rank score and the row-count score of the input, and it is
    one of them, or 0 when the input carries none. *)
Theorem final_score_dominates_signals (inputs : ConfidenceInput)
    (scores : list Q) (s : Q) :
  collect_scores inputs = Ok scores ->
  final_score_of scores = Ok s ->
  Forall (fun x => x <= s)%Q (items (retriever_scores inputs))
  /\ Forall (fun x => x <= s)%Q (items (reranker_scores inputs))
  /\ (forall c, sql_row_count inputs = Some c -> (sql_score c <= s)%Q)
  /\ (In s (items (retriever_scores inputs))
      \/ In s (items (reranker_scores inputs))
      \/ (exists c, sql_row_count inputs = Some c /\ s = sql_score c)
      \/ (s = 0%Q /\ scores = [])).
Proof.
  intros Hc Hf.
  assert (Hsub : forall xs l,
             (if nonempty xs then m <- py_max (items xs) ;; Ok [m] else Ok [])
             = Ok l ->
             (forall b, Forall (fun x => x <= b)%Q l ->
                        Forall (fun x => x <= b)%Q (items xs))
             /\ (forall x, In x l -> In x (items xs))).
  { intros xs l Hl. destruct xs as [[ | x rest] | ]; simpl in Hl;
      inversion Hl; subst; clear Hl.
    - split; [intros b _; constructor | intros y []].
    - split.
      + intros b Hb. inversion Hb as [ | ? ? Hm _]; subst.
        destruct (max_from_upper rest x) as [U1 U2].
        constructor; [apply Qle_trans with (max_from x rest); assumption | ].
        rewrite Forall_forall in *. intros y Hy.
        apply Qle_trans with (max_from x rest); [apply U2; exact Hy | exact Hm].
      + intros y [<- | []]. apply max_from_member.
    - split; [intros b _; constructor | intros y []]. }
  unfold collect_scores in Hc.
  apply bind_ok_inv in Hc as (s1 & E1 & Hc).
  apply bind_ok_inv in Hc as (s2 & E2 & Hc).
  inversion Hc; subst scores; clear Hc.
  destruct (Hsub _ _ E1) as [U1 M1]. destruct (Hsub _ _ E2) as [U2 M2].
  pose proof (final_score_is_maximum _ _ Hf) as Hmax.
  set (s3 := match sql_row_count inputs with
             | Some c => [sql_score c]
             | None => []
             end) in *.
  destruct (s1 ++ s2 ++ s3)%list as [ | y ys] eqn:El.
  - apply app_eq_nil in El as [-> El]. apply app_eq_nil in El as [-> El].
    split; [apply U1; constructor | ]. split; [apply U2; constructor | ].
    split.
    + intros c Hcnt. unfold s3 in El. rewrite Hcnt in El. discriminate El.
    + right. right. right. auto.
  - destruct Hmax as [Hin Hall]. rewrite <- El in Hin, Hall.
    apply Forall_app in Hall as [A1 Hall]. apply Forall_app in Hall as [A2 A3].
    split; [apply U1; exact A1 | ]. split; [apply U2; exact A2 | ].
    split.
    + intros c Hcnt. unfold s3 in A3. rewrite Hcnt in A3.
      inversion A3; assumption.
    + apply in_app_or in Hin as [Hin | Hin]; [left; apply M1; exact Hin | ].
      apply in_app_or in Hin as [Hin | Hin]; [right; left; apply M2; exact Hin | ].
      right. right. left. unfold s3 in Hin.
      destruct (sql_row_count inputs) as [c | ]; [ | contradiction].
      destruct Hin as [<- | []]. exists c. auto.
Qed.
End ConfidenceMore.

(* ================================================================== *)
(** * Properties of the unified IR object *)
(* ================================================================== *)

(** Building a [UnifiedQueryIR] from the dictionary of another one gives
    that one back; and the dictionary of an object built from keyword
    arguments binds each of the nine field names to what the arguments
    bound it to, [None] standing for an optional field that was left
    out. *)
Theorem UnifiedQueryIR_round_trip (x : UnifiedQueryIR.t) :
  UnifiedQueryIR.init (UnifiedQueryIR_to_dict x) = Ok x
  /\ (forall kwargs k,
        UnifiedQueryIR.init kwargs = Ok x ->
        UnifiedQueryIR.is_field k = true ->
        dict_get (UnifiedQueryIR_to_dict x) k = dict_get kwargs k).
Proof.
  split.
  - destruct x. reflexivity.
  - intros kwargs k H Hk. unfold UnifiedQueryIR.init in H.
    destruct (negb (forallb _ kwargs)); [discriminate H | ].
    destruct (negb (forallb _ UnifiedQueryIR.required)); [discriminate H | ].
    inversion H; subst x; clear H.
    unfold UnifiedQueryIR.is_field in Hk. simpl in Hk.
    repeat (apply orb_true_iff in Hk as [Hk | Hk];
            [apply String.eqb_eq in Hk; subst k; reflexivity | ]).
    discriminate Hk.
Qed.


(* ================================================================== *)
(** * Further properties of the IR synthesizer *)
(* ================================================================== *)

Section GeneratorMore.
Context {RT : PyRuntime}.

(** [_build_llm_ir] never raises: it returns the object the reply
    decodes to, or else the rule-based IR. *)
Theorem build_llm_ir_never_raises (client : LlmClient) (query : string)
    (rr : RouteResult) :
  exists ir,
    LlmIRGenerator._build_llm_ir client query rr = Ok ir
    /\ ((exists raw,
           client (LlmIRGenerator.llm_prompt query rr) = Ok (PStr raw)
           /\ json_loads raw = Ok (PDict ir))
        \/ LlmIRGenerator._build_rule_based_ir query rr = Ok ir).
Proof.
  destruct (rule_based_ir_returns query rr) as [rule Hrule].
  unfold LlmIRGenerator._build_llm_ir.
  destruct (client (LlmIRGenerator.llm_prompt query rr)) as [raw | e] eqn:Ec;
    simpl; [ | exists rule; rewrite Hrule; auto].
  destruct raw; simpl; try (exists rule; rewrite Hrule; auto; fail).
  destruct (json_loads s) as [v | e] eqn:Ej; simpl;
    [ | exists rule; rewrite Hrule; auto].
  destruct v; simpl; try (exists rule; rewrite Hrule; auto; fail).
  exists d. split; [reflexivity | ]. left. exists s. auto.
Qed.

(** The rule-based IR is always a valid argument list of
    [UnifiedQueryIR]: the object carries the route as query type, the
    query itself and the fallback flag, and it names the default table
    [tender_project] with the wildcard select and no filter exactly when
    the route is "sql" or "hybrid". *)
Theorem rule_based_ir_is_well_formed (query : string) (rr : RouteResult) :
  exists ir x,
    LlmIRGenerator._build_rule_based_ir query rr = Ok ir
    /\ UnifiedQueryIR.init ir = Ok x
    /\ UnifiedQueryIR.query_type x = PStr (route rr)
    /\ UnifiedQueryIR.original_query x = PStr query
    /\ UnifiedQueryIR.fallback_enabled x = PBool true
    /\ (if String.eqb (route rr) "sql" || String.eqb (route rr) "hybrid"
        then UnifiedQueryIR.table x = PStr "tender_project"
             /\ UnifiedQueryIR.select x = PList [PStr "*"]
             /\ UnifiedQueryIR.filters x = PList []
        else UnifiedQueryIR.table x = PNone
             /\ UnifiedQueryIR.select x = PNone
             /\ UnifiedQueryIR.filters x = PNone).
Proof.
  unfold LlmIRGenerator._build_rule_based_ir.
  destruct (String.eqb (route rr) "sql" || String.eqb (route rr) "hybrid");
    simpl; eexists _, _; repeat split; reflexivity.
Qed.

(** The business validator has nothing to say about a rule-based IR. *)
Theorem rule_based_ir_passes_business (self : BusinessValidator.t)
    (query : string) (rr : RouteResult) :
  exists ir,
    LlmIRGenerator._build_rule_based_ir query rr = Ok ir
    /\ BusinessValidator.validate_ir self ir
       = Ok {| BusinessValidator.ok := true; BusinessValidator.warnings := [] |}.
Proof.
  unfold LlmIRGenerator._build_rule_based_ir.
  destruct (String.eqb (route rr) "sql" || String.eqb (route rr) "hybrid");
    simpl; eexists; (split; [reflexivity | ]);
    destruct (contains "公司" query || contains "企业" query);
    destruct (contains "项目" query || contains "招标" query
              || contains "中标" query);
    reflexivity.
Qed.

(** As in the endpoint: the dictionary of the object made from the
    rule-based IR of a query routed to "sql" or "hybrid" is synthesized,
    when the registry knows [tender_project], to the unfiltered query on
    that table with the ceiling as limit and no parameter. *)
Theorem rule_based_ir_synthesis (synthesizer : IR2SQL.t) (query : string)
    (rr : RouteResult) (ts : TableSchema) :
  route rr = "sql" \/ route rr = "hybrid" ->
  DBSchema.lookup_table "tender_project"
    (DBSchema._tables (IR2SQL._schema synthesizer)) = Some ts ->
  exists ir x,
    LlmIRGenerator._build_rule_based_ir query rr = Ok ir
    /\ UnifiedQueryIR.init ir = Ok x
    /\ IR2SQL.build synthesizer (UnifiedQueryIR_to_dict x)
       = Ok {| sql := "SELECT * FROM tender_project LIMIT "
                      ++ Z_to_string (IR2SQL.max_limit synthesizer);
               params := [] |}.
Proof.
  intros Hroute Hlook. unfold LlmIRGenerator._build_rule_based_ir.
  assert (E : String.eqb (route rr) "sql" || String.eqb (route rr) "hybrid" = true).
  { destruct Hroute as [-> | ->]; reflexivity. }
  rewrite E. simpl. eexists _, _. split; [reflexivity | ].
  split; [reflexivity | ].
  rewrite (build_ok_intro synthesizer _ "tender_project" "*" ts []);
    try reflexivity; try assumption; discriminate.
Qed.
End GeneratorMore.

Lemma rule_based_ir_synthesis_witness :
  exists ir x,
    LlmIRGenerator._build_rule_based_ir (RT := ascii_runtime) "近期招标项目"
      {| route := "sql"; intent := "tender_query";
         entity_type := Some "tender"; reason := None |} = Ok ir
    /\ UnifiedQueryIR.init ir = Ok x
    /\ IR2SQL.build (RT := ascii_runtime) sample_synthesizer
         (UnifiedQueryIR_to_dict x)
       = Ok {| sql := "SELECT * FROM tender_project LIMIT 100"; params := [] |}.
Proof.
  exact (rule_based_ir_synthesis (RT := ascii_runtime) sample_synthesizer
           "近期招标项目"
           {| route := "sql"; intent := "tender_query";
              entity_type := Some "tender"; reason := None |}
           {| name := "tender_project";
              columns := ["id"; "title"; "amount"; "publish_date"];
              primary_key := Some "id" |}
           (or_introl eq_refl) eq_refl).
Defined.

(* ================================================================== *)
(** * The rule path of the IR synthesizer *)
(* ================================================================== *)

Section RulePathHelpers.
Context {RT : PyRuntime}.

Lemma route_without_classifier_returns (intent_map : list (string * dict))
    (query : string) :
  exists rr, QueryRouter.route intent_map None query = Ok (rr, []).
Proof.
  unfold QueryRouter.route.
  destruct (QueryRouter._rule_based_route query) as [[i e] r].
  eexists. reflexivity.
Qed.

Lemma rule_based_ir_constructs (query : string) (rr : RouteResult) :
  exists ir x,
    LlmIRGenerator._build_rule_based_ir query rr = Ok ir
    /\ UnifiedQueryIR.init ir = Ok x.
Proof.
  unfold LlmIRGenerator._build_rule_based_ir.
  destruct (String.eqb (route rr) "sql" || String.eqb (route rr) "hybrid");
    simpl; eexists _, _; split; reflexivity.
Qed.

Lemma rule_based_ir_business_clean (self : BusinessValidator.t)
    (query : string) (rr : RouteResult) (ir : dict) :
  LlmIRGenerator._build_rule_based_ir query rr = Ok ir ->
  BusinessValidator.validate_ir self ir
  = Ok {| BusinessValidator.ok := true; BusinessValidator.warnings := [] |}.
Proof.
  unfold LlmIRGenerator._build_rule_based_ir.
  destruct (String.eqb (route rr) "sql" || String.eqb (route rr) "hybrid");
    simpl; intros H; inversion H; subst ir;
    destruct (contains "公司" query || contains "企业" query);
    destruct (contains "项目" query || contains "招标" query
              || contains "中标" query);
    reflexivity.
Qed.
End RulePathHelpers.

Section GenerateWithoutClient.
Context {RT : PyRuntime}.
Variable self : LlmIRGenerator.t.

(** Without a client, [generate] returns exactly for the queries whose
    rule-based IR the structural validator has no objection to, and then
    returns the object made from that IR; the business validator never
    stands in the way. *)
Theorem generate_without_client (query : string) :
  LlmIRGenerator._llm_client self = None ->
  exists rr ir x,
    QueryRouter.route (LlmIRGenerator._router_intent_map self) None query
    = Ok (rr, [])
    /\ LlmIRGenerator._build_rule_based_ir query rr = Ok ir
    /\ UnifiedQueryIR.init ir = Ok x
    /\ (accepted (LlmIRGenerator._schema_validator self) ir = true ->
        LlmIRGenerator.generate self query = Ok x)
    /\ (accepted (LlmIRGenerator._schema_validator self) ir = false ->
        raises (LlmIRGenerator.generate self query)).
Proof.
  intros Hnone.
  destruct (route_without_classifier_returns (LlmIRGenerator._router_intent_map self)
              query) as (rr & Hroute).
  destruct (rule_based_ir_constructs query rr) as (ir & x & Hir & Hx).
  pose proof (rule_based_ir_business_clean (LlmIRGenerator._business_validator self)
                query rr ir Hir) as Hbiz.
  exists rr, ir, x. repeat split; try assumption.
  - intros Hacc. unfold LlmIRGenerator.generate.
    rewrite Hroute. cbn [bind]. rewrite Hnone, Hir. cbn [bind].
    rewrite (proj2 (validate_ok_iff_accepted (LlmIRGenerator._schema_validator self)
                      ir _) (conj Hacc eq_refl)).
    cbn [bind IRSchemaValidator.ok negb]. rewrite Hbiz. exact Hx.
  - intros Hacc. unfold LlmIRGenerator.generate.
    rewrite Hroute. cbn [bind]. rewrite Hnone, Hir. cbn [bind].
    destruct (IRSchemaValidator.validate (LlmIRGenerator._schema_validator self) ir)
      as [sr | e] eqn:Ev; [ | eexists; reflexivity].
    apply validate_ok_iff_accepted in Ev as [Ht _]. congruence.
Qed.
End GenerateWithoutClient.

(* ================================================================== *)
(** * Properties of the answer generator *)
(* ================================================================== *)

Section AnswerFacts.
Context {RT : PyRuntime}.
Variable str_format : string -> list (string * pyval) -> res string.
Variable self : AnswerGenerator.t.


(** A failure of the client never makes [generate] fail: it returns
    whenever the answer is not to be trusted or the prompt template can
    be filled in, and only then. *)
Theorem answer_returns_iff (query route : string) (ir : dict)
    (context_text : string) (citations : list dict) (is_confident : bool) :
  returns (AnswerGenerator.generate str_format self query route ir context_text
             citations is_confident)
  <-> is_confident = false
      \/ returns (AnswerGenerator._format_prompt str_format self query route ir
                    context_text).
Proof.
  unfold AnswerGenerator.generate, returns. destruct is_confident; cbn [negb].
  - destruct (AnswerGenerator._format_prompt str_format self query route ir
                context_text) as [prompt | e]; cbn [bind].
    + split; [intros _; right; eexists; reflexivity | intros _].
      destruct (AnswerGenerator._llm_client self prompt); simpl;
        eexists; reflexivity.
    + split; [intros [x H]; discriminate H | ].
      intros [H | [x H]]; discriminate H.
  - split; [intros _; left; reflexivity | intros _; eexists; reflexivity].
Qed.
End AnswerFacts.

(* ================================================================== *)
(** * Properties of the endpoint *)
(* ================================================================== *)

Section EndpointFacts.
Context {RT : PyRuntime}.
Variable Response : Type.
Variable retrieve_and_rerank : string -> res (list Api.RerankResult).
Variable execute : string -> list pyval -> res (list dict).
Variable steps_5_6 :
  RouteResult -> dict -> list Api.RerankResult -> list dict -> pyval ->
  ConfidenceChecker.ConfidenceResult -> res Response.

(** No request is answered: whatever the query, the configuration and
    the behaviour of retrieval and of the data store, [query_endpoint]
    raises before a response is built, at the latest in the confidence
    evaluation of step 4. *)
Theorem query_endpoint_always_raises (self : Api.t) (query : string) :
  raises (Api.query_endpoint Response retrieve_and_rerank execute steps_5_6
            self query).
Proof.
  unfold Api.query_endpoint. cbn [SimpleLogger_call bind].
  destruct (QueryRouter.route (Api.router_intent_map self) None query)
    as [[rr calls] | e]; cbn [bind]; [ | eexists; reflexivity].
  destruct (LlmIRGenerator.generate (Api.ir_generator self) query)
    as [ir_obj | e]; cbn [bind]; [ | eexists; reflexivity].
  match goal with
  | |- raises (bind ?c _) => destruct c as [rag_docs | e]
  end; cbn [bind]; [ | eexists; reflexivity].
  match goal with
  | |- raises (bind ?c _) => destruct c as [[sql_rows sql_table] | e]
  end; cbn [bind]; [ | eexists; reflexivity].
  rewrite evaluate_always_raises. eexists. reflexivity.
Qed.
End EndpointFacts.

(* ================================================================== *)
(** * The properties above on the samples *)
(* ================================================================== *)

Lemma DBSchema_init_lookup_witness :
  exists entries,
    (sql_tables <- obj_get_default sample_schema_document "sql_tables" (PDict []) ;;
     obj_items sql_tables) = Ok entries
    /\ (forall t t_cfg, In (t, t_cfg) entries ->
          exists ts, DBSchema.get sample_schema (PStr t) = Ok (Some ts))
    /\ (forall t ts, DBSchema.get sample_schema (PStr t) = Ok (Some ts) ->
          name ts = t
          /\ (exists t_cfg cols,
                In (t, t_cfg) entries
                /\ obj_get_default t_cfg "columns" (PDict []) = Ok (PDict cols)
                /\ columns ts = map fst cols)
          /\ (forall pk, primary_key ts = Some pk ->
                         has_column ts (PStr pk) = true)).
Proof.
  exact (DBSchema_init_lookup (RT := ascii_runtime) (map_string ascii_upper)
           sample_schema_document sample_schema eq_refl).
Defined.

Lemma validated_ir_keeps_all_filters_witness :
  IR2SQL.build (RT := ascii_runtime) sample_synthesizer validated_ir
  = Ok {| sql := "SELECT `id`, `title` FROM tender_project WHERE `amount` BETWEEN %s AND %s AND `publish_date` >= %s LIMIT 100";
          params := [PInt 1000000; PInt 5000000; PStr "2024-01-01"] |}.
Proof.
  refine (proj2 (validated_ir_keeps_all_filters (RT := ascii_runtime)
                   sample_validator sample_synthesizer validated_ir
                   {| IRSchemaValidator.ok := true; IRSchemaValidator.errors := [] |}
                   "tender_project" "`id`, `title`"
                   {| name := "tender_project";
                      columns := ["id"; "title"; "amount"; "publish_date"];
                      primary_key := Some "id" |}
                   eq_refl _ eq_refl _ eq_refl eq_refl _)).
  - intros o H. exact H.
  - discriminate.
  - intros d H. simpl in H.
    destruct H as [H | [H | []]]; inversion H; subst; reflexivity.
Defined.

Lemma validate_ir_without_ranges_witness :
  BusinessValidator.validate_ir (RT := ascii_runtime) sample_business_validator
    amount_ir
  = Ok {| BusinessValidator.ok := true; BusinessValidator.warnings := [] |}.
Proof.
  exact (validate_ir_without_ranges (RT := ascii_runtime)
           sample_business_validator amount_ir [] eq_refl eq_refl eq_refl).
Defined.

Lemma validate_ir_amount_in_range_witness :
  BusinessValidator.validate_ir (RT := ascii_runtime) sample_business_validator
    ranged_ir
  = Ok {| BusinessValidator.ok := true; BusinessValidator.warnings := [] |}.
Proof.
  apply (validate_ir_amount_in_range (RT := ascii_runtime)
           sample_business_validator ranged_ir
           [("amount_range", PDict [("min", PInt 1000000); ("max", PInt 5000000)])]
           [("min", PInt 1000000); ("max", PInt 5000000)]
           1000000 5000000); try reflexivity.
  - discriminate.
  - discriminate.
  - lia.
Defined.

Lemma validate_ir_swapped_bounds_raise_witness :
  raises (BusinessValidator.validate_ir (RT := ascii_runtime)
            sample_business_validator
            [("structured_conditions",
              PDict [("amount_range",
                      PDict [("min", PInt 5000000); ("max", PInt 1000000)])])]).
Proof.
  apply (validate_ir_swapped_bounds_raise (RT := ascii_runtime)
           sample_business_validator
           [("structured_conditions",
             PDict [("amount_range",
                     PDict [("min", PInt 5000000); ("max", PInt 1000000)])])]
           [("amount_range", PDict [("min", PInt 5000000); ("max", PInt 1000000)])]
           [("min", PInt 5000000); ("max", PInt 1000000)]
           5000000 1000000); try reflexivity.
Defined.

Lemma validate_ir_result_is_clean_witness :
  {| BusinessValidator.ok := true; BusinessValidator.warnings := [] |}
  = {| BusinessValidator.ok := true; BusinessValidator.warnings := [] |}.
Proof.
  exact (validate_ir_result_is_clean (RT := ascii_runtime)
           sample_business_validator ranged_ir
           {| BusinessValidator.ok := true; BusinessValidator.warnings := [] |}
           eq_refl).
Defined.

Lemma final_score_in_unit_interval_witness :
  (0 <= 9 # 10)%Q /\ (9 # 10 <= 1)%Q.
Proof.
  apply (final_score_in_unit_interval
           {| ConfidenceChecker.retriever_scores := Some [1 # 2; 9 # 10];
              ConfidenceChecker.reranker_scores := None;
              ConfidenceChecker.sql_row_count := Some 10%Z |}
           [9 # 10; 10 # 50] (9 # 10)).
  - repeat constructor; discriminate.
  - constructor.
  - reflexivity.
  - reflexivity.
Defined.

Lemma final_score_dominates_signals_witness :
  Forall (fun x => x <= 9 # 10)%Q [1 # 2; 9 # 10].
Proof.
  exact (proj1 (final_score_dominates_signals
                  {| ConfidenceChecker.retriever_scores := Some [1 # 2; 9 # 10];
                     ConfidenceChecker.reranker_scores := None;
                     ConfidenceChecker.sql_row_count := Some 10%Z |}
                  [9 # 10; 10 # 50] (9 # 10) eq_refl eq_refl)).
Defined.

Lemma final_score_monotone_witness :
  exists sa sb fa fb,
    ConfidenceChecker.collect_scores
      {| ConfidenceChecker.retriever_scores := Some [1 # 2];
         ConfidenceChecker.reranker_scores := None;
         ConfidenceChecker.sql_row_count := Some 10%Z |} = Ok sa
    /\ ConfidenceChecker.final_score_of sa = Ok fa
    /\ ConfidenceChecker.collect_scores
         {| ConfidenceChecker.retriever_scores := Some [1 # 2];
            ConfidenceChecker.reranker_scores := None;
            ConfidenceChecker.sql_row_count := Some 40%Z |} = Ok sb
    /\ ConfidenceChecker.final_score_of sb = Ok fb
    /\ (fa <= fb)%Q.
Proof.
  apply final_score_monotone. repeat split; simpl.
  - constructor; [apply Qle_refl | constructor].
  - lia.
Defined.

Lemma generate_without_client_witness :
  exists rr ir x,
    QueryRouter.route (RT := ascii_runtime)
      (LlmIRGenerator._router_intent_map rule_only_generator) None "你好"
    = Ok (rr, [])
    /\ LlmIRGenerator._build_rule_based_ir (RT := ascii_runtime) "你好" rr = Ok ir
    /\ UnifiedQueryIR.init ir = Ok x
    /\ (accepted (RT := ascii_runtime)
          (LlmIRGenerator._schema_validator rule_only_generator) ir = true ->
        LlmIRGenerator.generate (RT := ascii_runtime) rule_only_generator "你好"
        = Ok x)
    /\ (accepted (RT := ascii_runtime)
          (LlmIRGenerator._schema_validator rule_only_generator) ir = false ->
        raises (LlmIRGenerator.generate (RT := ascii_runtime)
                  rule_only_generator "你好")).
Proof.
  exact (generate_without_client (RT := ascii_runtime) rule_only_generator
           "你好" eq_refl).
Defined.

